(** * pvforecast: a shallow embedding of [pvforecast/api.py]

    The client validates three call options, builds one GET request against a
    fixed base URL, and maps the decoded JSON answer into forecast records.
    The embedding follows the Python source function by function.  Library
    code that the source calls but does not define ([bytes.decode],
    [json.loads], [urllib.parse.urlencode] and the network behind
    [urllib.request.urlopen]) is taken as a parameter of the development. *)

From Stdlib Require Import ZArith String Ascii List Bool Lia Floats DecimalString.
From Stdlib Require Import Uint63.
Import ListNotations.
Local Open Scope string_scope.
Local Open Scope Z_scope.
Set Warnings "-register-all".

(** ** Python values *)

(** The objects that reach the client: what [json.loads] can produce, which
    also covers the documented argument types ([int], [float], [str]).
    A [str] is kept as its UTF-8 encoding; a [dict] as its items in insertion
    order (JSON objects only have [str] keys). *)
Inductive value : Type :=
| VNone
| VBool (b : bool)
| VInt (z : Z)
| VFloat (f : float)
| VStr (s : string)
| VList (l : list value)
| VDict (items : list (string * value)).

Definition bytes := list Byte.byte.

(** [type(v).__name__], as it appears in the interpreter's messages. *)
Definition type_name (v : value) : string :=
  match v with
  | VNone => "NoneType"
  | VBool _ => "bool"
  | VInt _ => "int"
  | VFloat _ => "float"
  | VStr _ => "str"
  | VList _ => "list"
  | VDict _ => "dict"
  end.

(** [str(n)] for an [int]. *)
Definition str_int (n : Z) : string := NilZero.string_of_int (Z.to_int n).

(** [v == n] for an [int] literal [n] with [0 <= n < 2^53], as every
    literal of the source is (such an [n] is a float exactly): [bool] is a
    subclass of [int], a [float] compares by value, and no other type equals
    a number. *)
Definition py_eq_int (v : value) (n : Z) : bool :=
  match v with
  | VBool b => (if b then 1 else 0) =? n
  | VInt z => z =? n
  | VFloat f => PrimFloat.eqb f (PrimFloat.of_uint63 (Uint63.of_Z n))
  | _ => false
  end.

(** [v == s] for a [str] literal [s]. *)
Definition py_eq_str (v : value) (s : string) : bool :=
  match v with
  | VStr t => String.eqb t s
  | _ => false
  end.

(** [v in [n1, n2, ...]] and [v in ["s1", "s2", ...]]. *)
Definition py_in_ints (v : value) (l : list Z) : bool := existsb (py_eq_int v) l.
Definition py_in_strs (v : value) (l : list string) : bool := existsb (py_eq_str v) l.

(** ** Exceptions *)

(** The classes that occur.  [JSONDecodeError] and [UnicodeDecodeError]
    derive from [ValueError].  [OtherError name] is any other class that a
    library call can raise ([RecursionError], [http.client.RemoteDisconnected],
    [http.client.IncompleteRead], [TimeoutError], ...); none of them derives
    from [URLError]. *)
Inductive exc_class : Type :=
| Exception
| ValueError
| JSONDecodeError
| UnicodeDecodeError
| TypeError
| IndexError
| KeyError
| OtherError (name : string).

(** The two exceptions of [urllib.error] carry the data the handlers read:
    [e.reason], and for [HTTPError] the status code and the body behind
    [e.read()]. *)
Inductive transport_error : Type :=
| HTTPError (code : Z) (reason : string) (fp : bytes)
| URLError (reason : string).

(** A raised exception: either one of the two above, still on its way to
    a handler, or an exception of class [c] with [str(e) = msg] and the
    [__cause__] that [raise ... from e] sets. *)
Inductive exc : Type :=
| Exc (c : exc_class) (msg : string) (cause : option transport_error)
| UrllibExc (e : transport_error).

Definition new_exc (c : exc_class) (msg : string) : exc := Exc c msg None.

Inductive result (A : Type) : Type :=
| Ok (a : A)
| Raise (e : exc).
Arguments Ok {A} a.
Arguments Raise {A} e.

Definition rbind {A B} (r : result A) (k : A -> result B) : result B :=
  match r with
  | Ok a => k a
  | Raise e => Raise e
  end.

(** What a library decoder answers: the decoded value; the message of the
    exception it raises for input it cannot decode ([UnicodeDecodeError]
    for [bytes.decode], [JSONDecodeError] for [json.loads]); or another
    exception, with its class and message ([json.loads] raises a plain
    [ValueError] for an integer of more digits than the interpreter
    converts, and [RecursionError] for deeply nested JSON). *)
Inductive decoded (A : Type) : Type :=
| Decoded (a : A)
| Malformed (msg : string)
| Aborted (c : exc_class) (msg : string).
Arguments Decoded {A} a.
Arguments Malformed {A} msg.
Arguments Aborted {A} c msg.

(** The decoder's answer inside the client: the exception for input that
    cannot be decoded has class [c]. *)
Definition of_decoded {A} (c : exc_class) (d : decoded A) : result A :=
  match d with
  | Decoded a => Ok a
  | Malformed msg => Raise (new_exc c msg)
  | Aborted c' msg => Raise (new_exc c' msg)
  end.

Declare Scope result_scope.
Delimit Scope result_scope with res.
Notation "x <- r ;; k" := (rbind r (fun x => k))
  (at level 61, r at next level, right associativity) : result_scope.

(** ** Subscripting and iteration *)

(** A UTF-8 continuation byte, [10xxxxxx]. *)
Definition is_continuation (c : ascii) : bool :=
  let n := nat_of_ascii c in (128 <=? n)%nat && (n <? 192)%nat.

(** Leading continuation bytes of [s], then the characters of the rest. *)
Fixpoint split_chars (s : string) : string * list string :=
  match s with
  | EmptyString => (EmptyString, [])
  | String c rest =>
      let (k, cs) := split_chars rest in
      if is_continuation c then (String c k, cs) else (EmptyString, String c k :: cs)
  end.

(** The characters (code points) of a [str], each as a one-character [str]. *)
Definition py_chars (s : string) : list string := snd (split_chars s).

(** [v[i]] for a non-negative [int] literal [i]. *)
Definition py_getitem (v : value) (i : nat) : result value :=
  match v with
  | VList l =>
      match nth_error l i with
      | Some x => Ok x
      | None => Raise (new_exc IndexError "list index out of range")
      end
  | VStr s =>
      match nth_error (py_chars s) i with
      | Some c => Ok (VStr c)
      | None => Raise (new_exc IndexError "string index out of range")
      end
  | VDict _ => Raise (new_exc KeyError (str_int (Z.of_nat i)))
  | _ => Raise (new_exc TypeError ("'" ++ type_name v ++ "' object is not subscriptable"))
  end.

(** [list(iter(v))]: what a [for] loop over [v] visits. *)
Definition py_iter (v : value) : result (list value) :=
  match v with
  | VList l => Ok l
  | VStr s => Ok (map VStr (py_chars s))
  | VDict items => Ok (map (fun kv => VStr (fst kv)) items)
  | _ => Raise (new_exc TypeError ("'" ++ type_name v ++ "' object is not iterable"))
  end.

(** A list comprehension [[f(entry) for entry in l]]: left to right, the
    first exception ends it. *)
Fixpoint comprehension {A B} (f : A -> result B) (l : list A) : result (list B) :=
  match l with
  | [] => Ok []
  | x :: l' =>
      (y <- f x ;;
       ys <- comprehension f l' ;;
       Ok (y :: ys))%res
  end.

(** ** Data model *)

(** The dataclasses.  A dataclass does not check its field annotations
    ([str], [int], [Optional[int]]): a field holds whatever element of the
    decoded JSON it is given. *)
Record HourlyForecast : Type := mkHourlyForecast {
  timestamp : value;
  irradiance : value
}.

(** ([d_timestamp] is the field [timestamp] of the source.) *)
Record DailyForecast : Type := mkDailyForecast {
  d_timestamp : value;
  total_irradiance : value
}.

Record HourlyForecastData : Type := mkHourlyForecastData {
  forecasts : list HourlyForecast
}.

(** Declared by the source with this field type, and never constructed:
    the daily operation returns a bare list. *)
Record DailyForecastData : Type := mkDailyForecastData {
  d_forecasts : list HourlyForecast
}.

(** What [_parse_json] returns: the wrapper for hourly data, a bare list for
    daily data. *)
Inductive parsed : Type :=
| Hourly (d : HourlyForecastData)
| Daily (l : list DailyForecast).

(** The client object: [__init__] stores the key. *)
Record PVForecast : Type := mkPVForecast {
  api_key : string
}.

Definition BASE_URL : string := "http://www.pvforecast.cz/api/".

(** The defaults of the keyword arguments. *)
Definition default_hourly_length : value := VInt 24.
Definition default_daily_length : value := VInt 1.
Definition default_dst : value := VInt 1.
Definition default_start : value := VStr "auto".

(** ** The network and the effect monad *)

(** One call of [urllib.request.urlopen(url, data=None)]. *)
Record request : Type := mkRequest {
  req_url : string;
  req_data : option bytes
}.

Record response : Type := mkResponse {
  status : Z;
  read : bytes
}.

(** What the exchange with the server does.  [urlopen] returns a response;
    or it raises [HTTPError] (the server answered with an error status; the
    default opener raises it for every status outside 2xx) or [URLError]
    (no connection was made).  [Breaks c msg]: [urlopen], or reading the
    one body that the code reads (of a response with status 200, or of an
    [HTTPError]), raises another exception, of class [c], as
    [http.client] does when the server closes the connection early; no
    handler of the source catches it. *)
Inductive transport_outcome : Type :=
| Returns (r : response)
| Fails (e : transport_error)
| Breaks (c : exc_class) (msg : string).

(** A computation threads the log of the requests sent so far, oldest
    first; the log survives an exception. *)
Definition M (A : Type) : Type := list request -> result A * list request.

Definition ret {A} (a : A) : M A := fun log => (Ok a, log).
Definition raise {A} (e : exc) : M A := fun log => (Raise e, log).
Definition lift {A} (r : result A) : M A := fun log => (r, log).

Definition bind {A B} (m : M A) (k : A -> M B) : M B :=
  fun log =>
    match m log with
    | (Ok a, log') => k a log'
    | (Raise e, log') => (Raise e, log')
    end.

(** [try: body except ...: handler]; a handler re-raises what it does not
    catch. *)
Definition try_except {A} (body : M A) (handler : exc -> M A) : M A :=
  fun log =>
    match body log with
    | (Ok a, log') => (Ok a, log')
    | (Raise e, log') => handler e log'
    end.

Declare Scope io_scope.
Delimit Scope io_scope with io.
Notation "x <- m ;; k" := (bind m (fun x => k))
  (at level 61, m at next level, right associativity) : io_scope.

(** Running a call from an empty log. *)
Definition run {A} (m : M A) : result A * list request := m [].
Definition outcome {A} (m : M A) : result A := fst (run m).

Section Client.

(** The answer of the network to each request. *)
Variable network : request -> transport_outcome.
(** [bytes.decode()]: UTF-8 text, or [UnicodeDecodeError]. *)
Variable decode : bytes -> decoded string.
(** [json.loads]: the decoded value, [JSONDecodeError], or another
    exception. *)
Variable json_loads : string -> decoded value.
(** [urllib.parse.urlencode] on a [dict], given as its items in order. *)
Variable urlencode : list (string * value) -> string.

(** [urlopen(url)], logged.  The exception of [Breaks] is raised here, at
    the first point where it can occur; raised while a body is read it
    reaches the caller in the same way, past both handlers and with no
    cause. *)
Definition urlopen (url : string) : M response :=
  fun log =>
    let rq := mkRequest url None in
    match network rq with
    | Returns r => (Ok r, (log ++ [rq])%list)
    | Fails e => (Raise (UrllibExc e), (log ++ [rq])%list)
    | Breaks c msg => (Raise (new_exc c msg), (log ++ [rq])%list)
    end.

Definition _parse_json (data : string) (forecast_type : string) : result parsed :=
  (raw_data <- of_decoded JSONDecodeError (json_loads data) ;;
   if String.eqb forecast_type "hour" then
     entries <- py_iter raw_data ;;
     forecasts <- comprehension
       (fun entry =>
          t <- py_getitem entry 0 ;;
          i <- py_getitem entry 1 ;;
          Ok (mkHourlyForecast t i)) entries ;;
     Ok (Hourly (mkHourlyForecastData forecasts))
   else if String.eqb forecast_type "day" then
     entries <- py_iter raw_data ;;
     forecasts <- comprehension
       (fun entry =>
          t <- py_getitem entry 0 ;;
          i <- py_getitem entry 1 ;;
          Ok (mkDailyForecast t i)) entries ;;
     Ok (Daily forecasts)
   else
     Raise (new_exc ValueError "Invalid time_type. Should be 'hour' or 'day'."))%res.

(** The [try] statement that ends both operations, the same but for the
    forecast type passed to [_parse_json].  The [with] block only closes
    the response. *)
Definition fetch (url : string) (forecast_type : string) : M parsed :=
  try_except
    (response <- urlopen url ;;
     if status response =? 200 then
       data <- lift (of_decoded UnicodeDecodeError (decode (read response))) ;;
       lift (_parse_json data forecast_type)
     else
       raise (new_exc Exception ("Failed to fetch data: HTTP " ++ str_int (status response))))%io
    (fun e =>
       match e with
       | UrllibExc (HTTPError code reason fp as h) =>
           (msg <- lift (of_decoded UnicodeDecodeError (decode fp)) ;;
            raise (Exc Exception ("Failed get data: " ++ reason ++ " - " ++ msg) (Some h)))%io
       | UrllibExc (URLError reason as u) =>
           raise (Exc Exception ("Failed to reach server: " ++ reason) (Some u))
       | _ => raise e
       end).

Definition hourly_params (self : PVForecast) (lat lon length dst start : value)
  : list (string * value) :=
  [ ("key", VStr (api_key self));
    ("lat", lat);
    ("lon", lon);
    ("forecast", VStr "pv");
    ("format", VStr "json");
    ("type", VStr "hour");
    ("number", length);
    ("dst", dst);
    ("start", start) ].

Definition daily_params (self : PVForecast) (lat lon length dst start : value)
  : list (string * value) :=
  [ ("key", VStr (api_key self));
    ("lat", lat);
    ("lon", lon);
    ("forecast", VStr "pv");
    ("format", VStr "json");
    ("type", VStr "day");
    ("number", length);
    ("dst", dst);
    ("start", start) ].

(** [lat] and [lon] are annotated [float] and passed on unchecked;
    [length], [dst] and [start] are checked by [not in]. *)
Definition get_hourly_irradiance (self : PVForecast) (lat lon length dst start : value)
  : M parsed :=
  if negb (py_in_ints length [24; 48; 72]) then
    raise (new_exc ValueError "Invalid length. Should be 24, 48 or 72.")
  else if negb (py_in_ints dst [0; 1]) then
    raise (new_exc ValueError "Invalid dst. Should be 0 or 1.")
  else if negb (py_in_strs start ["today"; "tomorrow"; "auto"]) then
    raise (new_exc ValueError "Invalid start. Should be 'today', 'tomorrow', or 'auto'.")
  else
    let params := hourly_params self lat lon length dst start in
    let url := BASE_URL ++ "?" ++ urlencode params in
    fetch url "hour".

Definition get_daily_irradiance (self : PVForecast) (lat lon length dst start : value)
  : M parsed :=
  if negb (py_in_ints length [1; 2; 3]) then
    raise (new_exc ValueError "Invalid length. Should be 1, 2 or 3.")
  else if negb (py_in_ints dst [0; 1]) then
    raise (new_exc ValueError "Invalid dst. Should be 0 or 1.")
  else if negb (py_in_strs start ["today"; "tomorrow"; "auto"]) then
    raise (new_exc ValueError "Invalid start. Should be 'today', 'tomorrow', or 'auto'.")
  else
    let params := daily_params self lat lon length dst start in
    let url := BASE_URL ++ "?" ++ urlencode params in
    fetch url "day".

End Client.

(** ** Failure kinds *)

(** The three failure kinds of the specification, as the source raises
    them: [ValueError] from the argument checks; [Exception] with the
    message of the [URLError] handler; [Exception] with the message of the
    [HTTPError] handler or of the status check. *)
Inductive failure_kind : Type :=
| InvalidParameter
| TransportUnreachable
| RemoteRequestFailed.

(** [s.startswith(p)]. *)
Fixpoint startswith (s p : string) {struct p} : bool :=
  match p with
  | EmptyString => true
  | String a p' =>
      match s with
      | EmptyString => false
      | String b s' => Ascii.eqb a b && startswith s' p'
      end
  end.

Definition failure_kind_of (e : exc) : option failure_kind :=
  match e with
  | Exc ValueError _ _ => Some InvalidParameter
  | Exc Exception msg _ =>
      if startswith msg "Failed to reach server: " then Some TransportUnreachable
      else if startswith msg "Failed get data: " then Some RemoteRequestFailed
      else if startswith msg "Failed to fetch data: HTTP " then Some RemoteRequestFailed
      else None
  | _ => None
  end.

(** [needle in hay] on [str]. *)
Definition occurs_in (needle hay : string) : Prop :=
  exists pre post, hay = pre ++ needle ++ post.

(** An [Optional] field is present when it is not [None]. *)
Definition is_present (v : value) : bool :=
  match v with
  | VNone => false
  | _ => true
  end.

(** The argument checks of the two operations. *)
Definition hourly_valid (length dst start : value) : bool :=
  py_in_ints length [24; 48; 72] && py_in_ints dst [0; 1]
  && py_in_strs start ["today"; "tomorrow"; "auto"].

Definition daily_valid (length dst start : value) : bool :=
  py_in_ints length [1; 2; 3] && py_in_ints dst [0; 1]
  && py_in_strs start ["today"; "tomorrow"; "auto"].

(** The one request each operation sends. *)
Definition hourly_request (urlencode : list (string * value) -> string)
    (self : PVForecast) (lat lon length dst start : value) : request :=
  mkRequest (BASE_URL ++ "?" ++ urlencode (hourly_params self lat lon length dst start)) None.

Definition daily_request (urlencode : list (string * value) -> string)
    (self : PVForecast) (lat lon length dst start : value) : request :=
  mkRequest (BASE_URL ++ "?" ++ urlencode (daily_params self lat lon length dst start)) None.

(** The two operations, for statements that hold of both. *)
Inductive operation : Type :=
| HourlyOp
| DailyOp.

Definition call (network : request -> transport_outcome)
    (decode : bytes -> decoded string) (json_loads : string -> decoded value)
    (urlencode : list (string * value) -> string) (op : operation)
  : PVForecast -> value -> value -> value -> value -> value -> M parsed :=
  match op with
  | HourlyOp => get_hourly_irradiance network decode json_loads urlencode
  | DailyOp => get_daily_irradiance network decode json_loads urlencode
  end.

Definition valid (op : operation) : value -> value -> value -> bool :=
  match op with
  | HourlyOp => hourly_valid
  | DailyOp => daily_valid
  end.

Definition request_of (urlencode : list (string * value) -> string) (op : operation)
  : PVForecast -> value -> value -> value -> value -> value -> request :=
  match op with
  | HourlyOp => hourly_request urlencode
  | DailyOp => daily_request urlencode
  end.

Definition forecast_type_of (op : operation) : string :=
  match op with
  | HourlyOp => "hour"
  | DailyOp => "day"
  end.

(** ** Reference instances of the library functions

    Executable stand-ins for the library code, used to run the client on
    concrete inputs.  Each agrees with the library on the subset it names;
    the theorems below hold for every instance. *)

Module Reference.

(** The double quote character. *)
Definition dq : string := String "034"%char EmptyString.

(** The first byte of [b] that is not ASCII, with its position. *)
Fixpoint first_non_ascii (b : bytes) (i : Z) : option (Z * Byte.byte) :=
  match b with
  | [] => None
  | x :: rest =>
      if (Byte.to_N x <? 128)%N then first_non_ascii rest (i + 1) else Some (i, x)
  end.

(** A byte as two lower-case hexadecimal digits. *)
Definition hex_byte (x : Byte.byte) : string :=
  let n := N.to_nat (Byte.to_N x) in
  let digit k := nth k (list_ascii_of_string "0123456789abcdef") "0"%char in
  String (digit (n / 16)%nat) (String (digit (n mod 16)%nat) EmptyString).

(** [bytes.decode()] on ASCII input, where UTF-8 decoding keeps every
    byte.  Other input is refused (the library accepts well-formed
    multi-byte characters); the message is the library's when the first
    byte that is not ASCII cannot start a character, as [0xff]. *)
Definition decode (b : bytes) : decoded string :=
  match first_non_ascii b 0 with
  | None => Decoded (string_of_list_byte b)
  | Some (i, x) =>
      Malformed ("'utf-8' codec can't decode byte 0x" ++ hex_byte x
                 ++ " in position " ++ str_int i ++ ": invalid start byte")
  end.

Definition encode (s : string) : bytes := list_byte_of_string s.

(** *** A reader for a subset of JSON

    Arrays, objects, strings without escapes, integers and the three
    literals, with optional white space.  Texts outside the subset
    (floats, escapes) are refused; the message is the library's for a
    text that does not start with a value.  Integers of any length are
    read (the interpreter refuses those of more than 4300 digits with a
    plain [ValueError]). *)

Definition is_ws (c : ascii) : bool :=
  (c =? " ")%char || (c =? "009")%char || (c =? "010")%char || (c =? "013")%char.

Fixpoint skip_ws (s : string) : string :=
  match s with
  | String c r => if is_ws c then skip_ws r else s
  | EmptyString => s
  end.

Definition is_digit (c : ascii) : bool :=
  let n := nat_of_ascii c in (48 <=? n)%nat && (n <=? 57)%nat.

Definition digit_val (c : ascii) : Z := Z.of_nat (nat_of_ascii c) - 48.

(** The characters of a string literal after its opening quote. *)
Fixpoint read_string (s : string) : option (string * string) :=
  match s with
  | EmptyString => None
  | String c r =>
      if (c =? "034")%char then Some (EmptyString, r)
      else if (c =? "\")%char || (nat_of_ascii c <? 32)%nat then None
      else match read_string r with
           | Some (t, r') => Some (String c t, r')
           | None => None
           end
  end.

Fixpoint read_digits (s : string) (acc : Z) : Z * string :=
  match s with
  | String c r => if is_digit c then read_digits r (10 * acc + digit_val c) else (acc, s)
  | EmptyString => (acc, s)
  end.

(** [0] or a digit sequence without a leading zero; a fraction or an
    exponent makes the number a float, outside the subset. *)
Definition read_nat (s : string) : option (Z * string) :=
  match s with
  | String c r =>
      if is_digit c then
        let (n, r') := if (c =? "0")%char then (0, r) else read_digits r (digit_val c) in
        match r' with
        | String d _ =>
            if (d =? ".")%char || (d =? "e")%char || (d =? "E")%char then None
            else Some (n, r')
        | EmptyString => Some (n, r')
        end
      else None
  | EmptyString => None
  end.

Fixpoint strip_prefix (p s : string) : option string :=
  match p, s with
  | EmptyString, _ => Some s
  | String a p', String b s' => if (a =? b)%char then strip_prefix p' s' else None
  | _, EmptyString => None
  end.

(** [d[k] = v] on the items of a [dict]: a repeated key keeps its place
    and takes the new value. *)
Fixpoint dict_set (k : string) (v : value) (items : list (string * value))
  : list (string * value) :=
  match items with
  | [] => [(k, v)]
  | (k', v') :: rest =>
      if String.eqb k k' then (k, v) :: rest else (k', v') :: dict_set k v rest
  end.

Fixpoint read_value (fuel : nat) (s : string) : option (value * string) :=
  match fuel with
  | O => None
  | S fuel' =>
      match s with
      | EmptyString => None
      | String c r =>
          if (c =? "[")%char then
            match skip_ws r with
            | String c' r' =>
                if (c' =? "]")%char then Some (VList [], r')
                else read_elements fuel' (skip_ws r) []
            | EmptyString => None
            end
          else if (c =? "{")%char then
            match skip_ws r with
            | String c' r' =>
                if (c' =? "}")%char then Some (VDict [], r')
                else read_members fuel' (skip_ws r) []
            | EmptyString => None
            end
          else if (c =? "034")%char then
            match read_string r with
            | Some (t, r') => Some (VStr t, r')
            | None => None
            end
          else if (c =? "-")%char then
            match read_nat r with
            | Some (n, r') => Some (VInt (- n), r')
            | None => None
            end
          else if is_digit c then
            match read_nat s with
            | Some (n, r') => Some (VInt n, r')
            | None => None
            end
          else
            match strip_prefix "null" s, strip_prefix "true" s, strip_prefix "false" s with
            | Some r', _, _ => Some (VNone, r')
            | _, Some r', _ => Some (VBool true, r')
            | _, _, Some r' => Some (VBool false, r')
            | _, _, _ => None
            end
      end
  end
with read_elements (fuel : nat) (s : string) (acc : list value) : option (value * string) :=
  match fuel with
  | O => None
  | S fuel' =>
      match read_value fuel' s with
      | Some (v, r) =>
          match skip_ws r with
          | String c r' =>
              if (c =? ",")%char then read_elements fuel' (skip_ws r') (acc ++ [v])
              else if (c =? "]")%char then Some (VList (acc ++ [v]), r')
              else None
          | EmptyString => None
          end
      | None => None
      end
  end
with read_members (fuel : nat) (s : string) (acc : list (string * value))
  : option (value * string) :=
  match fuel with
  | O => None
  | S fuel' =>
      match s with
      | String q r =>
          if (q =? "034")%char then
            match read_string r with
            | Some (k, r1) =>
                match skip_ws r1 with
                | String c r2 =>
                    if (c =? ":")%char then
                      match read_value fuel' (skip_ws r2) with
                      | Some (v, r3) =>
                          match skip_ws r3 with
                          | String c' r4 =>
                              if (c' =? ",")%char
                              then read_members fuel' (skip_ws r4) (dict_set k v acc)
                              else if (c' =? "}")%char
                              then Some (VDict (dict_set k v acc), r4)
                              else None
                          | EmptyString => None
                          end
                      | None => None
                      end
                    else None
                | EmptyString => None
                end
            | None => None
            end
          else None
      | EmptyString => None
      end
  end.

Definition json_loads (s : string) : decoded value :=
  let refused := Malformed "Expecting value: line 1 column 1 (char 0)" in
  match read_value (2 * String.length s + 2) (skip_ws s) with
  | Some (v, r) =>
      match skip_ws r with
      | EmptyString => Decoded v
      | _ => refused
      end
  | None => refused
  end.

(** *** [urlencode] on scalar values

    [quote_plus] byte by byte; [str(v)] for [None], [bool], [int],
    [str] and integral [float] values below [1e16].  The text of other
    floats and of containers needs the interpreter's [repr] and is not
    rendered here. *)

Definition always_safe (c : ascii) : bool :=
  let n := nat_of_ascii c in
  ((65 <=? n)%nat && (n <=? 90)%nat) || ((97 <=? n)%nat && (n <=? 122)%nat)
  || is_digit c
  || (c =? "_")%char || (c =? ".")%char || (c =? "-")%char || (c =? "~")%char.

Definition hex_digit (n : nat) : ascii :=
  nth n (list_ascii_of_string "0123456789ABCDEF") "0"%char.

Definition quote_byte (c : ascii) : string :=
  let n := nat_of_ascii c in
  if always_safe c then String c EmptyString
  else if (c =? " ")%char then "+"
  else String "%" (String (hex_digit (n / 16)) (String (hex_digit (n mod 16)) EmptyString)).

Fixpoint quote_plus (s : string) : string :=
  match s with
  | EmptyString => EmptyString
  | String c r => quote_byte c ++ quote_plus r
  end.

Definition str_float (f : float) : string :=
  match Prim2SF f with
  | S754_zero sgn => if sgn then "-0.0" else "0.0"
  | S754_infinity sgn => if sgn then "-inf" else "inf"
  | S754_nan => "nan"
  | S754_finite sgn m e =>
      let z := if 0 <=? e then Z.pos m * 2 ^ e else Z.pos m / 2 ^ (- e) in
      let integral := (0 <=? e) || (Z.pos m mod 2 ^ (- e) =? 0) in
      if integral && (z <? 10 ^ 16)
      then (if sgn then "-" else EmptyString) ++ str_int z ++ ".0"
      else EmptyString
  end.

Definition py_str (v : value) : string :=
  match v with
  | VNone => "None"
  | VBool b => if b then "True" else "False"
  | VInt z => str_int z
  | VFloat f => str_float f
  | VStr s => s
  | VList _ | VDict _ => EmptyString
  end.

Definition urlencode (params : list (string * value)) : string :=
  String.concat "&"
    (map (fun kv => quote_plus (fst kv) ++ "=" ++ quote_plus (py_str (snd kv))) params).

(** A network that gives the same answer to every request, as a patched
    [urlopen] does. *)
Definition always (o : transport_outcome) : request -> transport_outcome := fun _ => o.

End Reference.

(** ** Sample calls

    The client, the coordinates and the answers of the repository's tests,
    run on the reference instances. *)

Module Examples.

Import Reference.

Definition client : PVForecast := mkPVForecast "test_key".
Definition lat : value := VFloat 50.
Definition lon : value := VFloat 14.

(** [[["2023-10-01T00:00:00Z", 1000]]] *)
Definition sample_text : string :=
  "[[" ++ dq ++ "2023-10-01T00:00:00Z" ++ dq ++ ", 1000]]".

(** [[["2023-10-02T00:00:00Z", null]]] *)
Definition null_text : string :=
  "[[" ++ dq ++ "2023-10-02T00:00:00Z" ++ dq ++ ", null]]".

(** [[["2023-10-01T00:00:00Z", 1000], ["2023-10-02T00:00:00Z", null]]] *)
Definition two_days_text : string :=
  "[[" ++ dq ++ "2023-10-01T00:00:00Z" ++ dq ++ ", 1000], ["
       ++ dq ++ "2023-10-02T00:00:00Z" ++ dq ++ ", null]]".

(** [[["2023-10-01T00:00:00Z", 1000, 7]]]: an entry of three elements. *)
Definition triple_text : string :=
  "[[" ++ dq ++ "2023-10-01T00:00:00Z" ++ dq ++ ", 1000, 7]]".

(** [{"error": "Invalid key"}]: a JSON object, as an error report. *)
Definition error_object_text : string :=
  "{" ++ dq ++ "error" ++ dq ++ ": " ++ dq ++ "Invalid key" ++ dq ++ "}".

(** [[["a", 1], [2], 5]]: a pair, an array of one element, a number. *)
Definition mixed_text : string :=
  "[[" ++ dq ++ "a" ++ dq ++ ", 1], [2], 5]".

(** One byte that no UTF-8 text contains. *)
Definition not_utf8 : bytes := [Byte.xff].

(** A network that answers every request with [status] and [text]. *)
Definition answers (status : Z) (text : string) : request -> transport_outcome :=
  always (Returns (mkResponse status (encode text))).

(** [urlopen] patched to raise [HTTPError] 500. *)
Definition server_error : request -> transport_outcome :=
  always (Fails (HTTPError 500 "Internal Server Error" (encode "quota exceeded"))).

(** The server closes the connection before it answers: [http.client]
    raises [RemoteDisconnected], which [urlopen] does not wrap. *)
Definition disconnected : request -> transport_outcome :=
  always (Breaks (OtherError "RemoteDisconnected")
            "Remote end closed connection without response").

(** [urlopen] patched to raise [HTTPError] 500 with a body that is not
    UTF-8 text. *)
Definition server_error_not_text : request -> transport_outcome :=
  always (Fails (HTTPError 500 "Internal Server Error" not_utf8)).

(** [urlopen] patched to raise [URLError]. *)
Definition unreachable : request -> transport_outcome :=
  always (Fails (URLError "Server not reachable")).

(** An operation of the client on the reference instances. *)
Definition sample_call (network : request -> transport_outcome) (op : operation)
    (length dst start : value) : M parsed :=
  call network decode json_loads urlencode op client lat lon length dst start.

Definition sample_request (op : operation) (length dst start : value) : request :=
  request_of urlencode op client lat lon length dst start.

End Examples.

(** * Properties *)

(** ** Strings *)

Lemma str_app_nil_r (s : string) : s ++ EmptyString = s.
Proof. induction s as [|c s IH]; simpl; [reflexivity|now rewrite IH]. Qed.

Lemma str_app_assoc (s t u : string) : (s ++ t) ++ u = s ++ t ++ u.
Proof. induction s as [|c s IH]; simpl; [reflexivity|now rewrite IH]. Qed.

Lemma occurs_in_prefix (pre needle : string) : occurs_in needle (pre ++ needle).
Proof. exists pre, EmptyString. now rewrite str_app_nil_r. Qed.

Lemma occurs_in_middle (pre needle post : string) :
  occurs_in needle (pre ++ needle ++ post).
Proof. exists pre, post. reflexivity. Qed.

Lemma startswith_app (p s : string) : startswith (p ++ s) p = true.
Proof.
  induction p as [|c p IH]; simpl; [reflexivity|].
  now rewrite Ascii.eqb_refl, IH.
Qed.

(** ** The interpreter's operations *)

Lemma py_getitem_raises (v : value) (i : nat) (e : exc) :
  py_getitem v i = Raise e ->
  exists c msg, e = Exc c msg None /\ (c = TypeError \/ c = IndexError \/ c = KeyError).
Proof.
  unfold py_getitem, new_exc.
  destruct v; try (intros [= <-]; eauto 6).
  - destruct (nth_error _ i); intros [= <-]; eauto 6.
  - destruct (nth_error _ i); intros [= <-]; eauto 6.
Qed.

Lemma py_iter_raises (v : value) (e : exc) :
  py_iter v = Raise e -> exists msg, e = Exc TypeError msg None.
Proof.
  unfold py_iter, new_exc. destruct v; intros [= <-]; eauto.
Qed.

Lemma comprehension_raises {A B} (f : A -> result B) (l : list A) (e : exc) :
  comprehension f l = Raise e -> exists x, In x l /\ f x = Raise e.
Proof.
  induction l as [|x l IH]; simpl; [discriminate|].
  destruct (f x) as [y|e'] eqn:Hx; simpl.
  - destruct (comprehension f l) as [ys|e'']; simpl; [discriminate|].
    intros [= ->]. destruct (IH eq_refl) as (x' & Hin & Hf). eauto.
  - intros [= ->]. eauto.
Qed.

Lemma comprehension_length {A B} (f : A -> result B) (l : list A) (ys : list B) :
  comprehension f l = Ok ys -> List.length ys = List.length l.
Proof.
  revert ys. induction l as [|x l IH]; simpl; intros ys.
  - now intros [= <-].
  - destruct (f x) as [y|]; simpl; [|discriminate].
    destruct (comprehension f l) as [zs|]; simpl; [|discriminate].
    intros [= <-]. simpl. now rewrite (IH zs eq_refl).
Qed.

Lemma comprehension_nth {A B} (f : A -> result B) (l : list A) (ys : list B) :
  comprehension f l = Ok ys ->
  forall i x, nth_error l i = Some x ->
  exists y, nth_error ys i = Some y /\ f x = Ok y.
Proof.
  revert ys. induction l as [|x l IH]; simpl; intros ys.
  - intros _ [|i] x; discriminate.
  - destruct (f x) as [y|] eqn:Hx; simpl; [|discriminate].
    destruct (comprehension f l) as [zs|]; simpl; [|discriminate].
    intros [= <-] [|i] x'; simpl.
    + intros [= <-]. eauto.
    + intros Hi. apply (IH zs eq_refl i x' Hi).
Qed.

(** ** The [try] statement *)

Section ClientFacts.

Variable network : request -> transport_outcome.
Variable decode : bytes -> decoded string.
Variable json_loads : string -> decoded value.
Variable urlencode : list (string * value) -> string.

(** Building the records raises only what subscripting raises. *)
Lemma records_raise {B} (mk : value -> value -> B) (l : list value) (e : exc) :
  comprehension
    (fun entry => (t <- py_getitem entry 0 ;; i <- py_getitem entry 1 ;; Ok (mk t i))%res) l
  = Raise e ->
  exists c msg, e = Exc c msg None /\ (c = TypeError \/ c = IndexError \/ c = KeyError).
Proof.
  intros H. apply comprehension_raises in H as (x & _ & Hx).
  destruct (py_getitem x 0) as [t|e0] eqn:H0; simpl in Hx.
  - destruct (py_getitem x 1) as [i|e1] eqn:H1; simpl in Hx; [discriminate|].
    injection Hx as ->. eapply py_getitem_raises; eauto.
  - injection Hx as ->. eapply py_getitem_raises; eauto.
Qed.

Lemma parse_json_malformed (data ft msg : string) :
  json_loads data = Malformed msg ->
  _parse_json json_loads data ft = Raise (Exc JSONDecodeError msg None).
Proof. intros H. unfold _parse_json. rewrite H. reflexivity. Qed.

(** On decoded JSON, [_parse_json] raises only what iterating and
    subscripting raise, or its own [ValueError] for an unknown type. *)
Lemma parse_json_decoded_raises (data ft : string) (raw : value) (e : exc) :
  json_loads data = Decoded raw ->
  _parse_json json_loads data ft = Raise e ->
  exists c msg, e = Exc c msg None
    /\ (c = TypeError \/ c = IndexError \/ c = KeyError
        \/ (c = ValueError /\ ft <> "hour" /\ ft <> "day")).
Proof.
  intros Hjson. unfold _parse_json. rewrite Hjson. simpl.
  destruct (String.eqb ft "hour") eqn:Eh; [|destruct (String.eqb ft "day") eqn:Ed].
  - destruct (py_iter raw) as [entries|e0] eqn:Hi; simpl.
    + destruct (comprehension _ entries) as [fs|e1] eqn:Hc; simpl; [discriminate|].
      intros [= ->]. destruct (records_raise _ _ _ Hc) as (c & msg & -> & Hcls).
      exists c, msg. intuition.
    + intros [= ->]. apply py_iter_raises in Hi as [msg ->]. eauto 8.
  - destruct (py_iter raw) as [entries|e0] eqn:Hi; simpl.
    + destruct (comprehension _ entries) as [fs|e1] eqn:Hc; simpl; [discriminate|].
      intros [= ->]. destruct (records_raise _ _ _ Hc) as (c & msg & -> & Hcls).
      exists c, msg. intuition.
    + intros [= ->]. apply py_iter_raises in Hi as [msg ->]. eauto 8.
  - intros [= <-]. unfold new_exc. do 2 eexists. split; [reflexivity|].
    do 3 right. apply String.eqb_neq in Eh, Ed. auto.
Qed.

Lemma parse_json_aborted (data ft : string) (c : exc_class) (msg : string) :
  json_loads data = Aborted c msg ->
  _parse_json json_loads data ft = Raise (Exc c msg None).
Proof. intros H. unfold _parse_json. rewrite H. reflexivity. Qed.

(** [_parse_json] raises nothing that the handlers of [fetch] catch. *)
Lemma parse_json_raises (data ft : string) (e : exc) :
  _parse_json json_loads data ft = Raise e -> exists c msg, e = Exc c msg None.
Proof.
  destruct (json_loads data) as [raw|msg|c msg] eqn:Hjson; intros H.
  - destruct (parse_json_decoded_raises _ _ _ _ Hjson H) as (c & m & -> & _). eauto.
  - rewrite (parse_json_malformed _ _ _ Hjson) in H. injection H as <-. eauto.
  - rewrite (parse_json_aborted _ _ _ _ Hjson) in H. injection H as <-. eauto.
Qed.

(** A response with status 200: the body is decoded and parsed, and what
    the parser raises passes the handlers unchanged. *)
Lemma fetch_status_200 (url ft : string) (r : response) (log : list request) :
  network (mkRequest url None) = Returns r ->
  status r = 200 ->
  fetch network decode json_loads url ft log
  = ((data <- of_decoded UnicodeDecodeError (decode (read r)) ;;
      _parse_json json_loads data ft)%res,
     (log ++ [mkRequest url None])%list).
Proof.
  intros Hnet Hst. unfold fetch, try_except, bind, urlopen, lift.
  rewrite Hnet, Hst. simpl.
  destruct (decode (read r)) as [data|msg|c msg]; simpl; [|reflexivity|reflexivity].
  destruct (_parse_json json_loads data ft) as [p|e] eqn:Hp; [reflexivity|].
  apply parse_json_raises in Hp as (c & msg & ->). reflexivity.
Qed.

(** A response with any other status: the status check raises. *)
Lemma fetch_other_status (url ft : string) (r : response) (log : list request) :
  network (mkRequest url None) = Returns r ->
  status r <> 200 ->
  fetch network decode json_loads url ft log
  = (Raise (new_exc Exception ("Failed to fetch data: HTTP " ++ str_int (status r))),
     (log ++ [mkRequest url None])%list).
Proof.
  intros Hnet Hst. unfold fetch, try_except, bind, urlopen, lift.
  rewrite Hnet. apply Z.eqb_neq in Hst. rewrite Hst. reflexivity.
Qed.

Lemma fetch_http_error (url ft : string) (code : Z) (reason : string) (fp : bytes)
    (log : list request) :
  network (mkRequest url None) = Fails (HTTPError code reason fp) ->
  fetch network decode json_loads url ft log
  = ((msg <- of_decoded UnicodeDecodeError (decode fp) ;;
      Raise (Exc Exception ("Failed get data: " ++ reason ++ " - " ++ msg)
               (Some (HTTPError code reason fp))))%res,
     (log ++ [mkRequest url None])%list).
Proof.
  intros Hnet. unfold fetch, try_except, bind, urlopen, lift, raise.
  rewrite Hnet. destruct (decode fp); reflexivity.
Qed.

Lemma fetch_url_error (url ft : string) (reason : string) (log : list request) :
  network (mkRequest url None) = Fails (URLError reason) ->
  fetch network decode json_loads url ft log
  = (Raise (Exc Exception ("Failed to reach server: " ++ reason) (Some (URLError reason))),
     (log ++ [mkRequest url None])%list).
Proof.
  intros Hnet. unfold fetch, try_except, bind, urlopen, lift, raise.
  rewrite Hnet. reflexivity.
Qed.

(** Another exception of the exchange passes both handlers. *)
Lemma fetch_breaks (url ft : string) (c : exc_class) (msg : string) (log : list request) :
  network (mkRequest url None) = Breaks c msg ->
  fetch network decode json_loads url ft log
  = (Raise (Exc c msg None), (log ++ [mkRequest url None])%list).
Proof.
  intros Hnet. unfold fetch, try_except, bind, urlopen, lift, raise.
  rewrite Hnet. reflexivity.
Qed.

(** Every run of [fetch] sends exactly one request, with no body. *)
Lemma fetch_log (url ft : string) (log : list request) :
  snd (fetch network decode json_loads url ft log) = (log ++ [mkRequest url None])%list.
Proof.
  destruct (network (mkRequest url None)) as [r|[code reason fp|reason]|c msg] eqn:Hnet.
  - destruct (Z.eq_dec (status r) 200) as [Hst|Hst].
    + now rewrite (fetch_status_200 _ _ _ _ Hnet Hst).
    + now rewrite (fetch_other_status _ _ _ _ Hnet Hst).
  - now rewrite (fetch_http_error _ _ _ _ _ _ Hnet).
  - now rewrite (fetch_url_error _ _ _ _ Hnet).
  - now rewrite (fetch_breaks _ _ _ _ _ Hnet).
Qed.

(** An array of pairs is mapped pair by pair. *)
Lemma comprehension_pairs {B} (mk : value -> value -> B) (pairs : list (value * value)) :
  comprehension
    (fun entry => (t <- py_getitem entry 0 ;; i <- py_getitem entry 1 ;; Ok (mk t i))%res)
    (map (fun p => VList [fst p; snd p]) pairs)
  = Ok (map (fun p => mk (fst p) (snd p)) pairs).
Proof.
  induction pairs as [|[t v] pairs IH]; simpl; [reflexivity|].
  rewrite IH. reflexivity.
Qed.

Lemma parse_json_pairs_hour (text : string) (pairs : list (value * value)) :
  json_loads text = Decoded (VList (map (fun p => VList [fst p; snd p]) pairs)) ->
  _parse_json json_loads text "hour"
  = Ok (Hourly (mkHourlyForecastData
                  (map (fun p => mkHourlyForecast (fst p) (snd p)) pairs))).
Proof.
  intros H. unfold _parse_json. rewrite H. simpl.
  rewrite comprehension_pairs. reflexivity.
Qed.

Lemma parse_json_pairs_day (text : string) (pairs : list (value * value)) :
  json_loads text = Decoded (VList (map (fun p => VList [fst p; snd p]) pairs)) ->
  _parse_json json_loads text "day"
  = Ok (Daily (map (fun p => mkDailyForecast (fst p) (snd p)) pairs)).
Proof.
  intros H. unfold _parse_json. rewrite H. simpl.
  rewrite comprehension_pairs. reflexivity.
Qed.

(** Any array that [_parse_json] accepts, whatever its entries are: one
    record per entry, made of the entry's elements 0 and 1. *)
Lemma parse_json_array_hour (text : string) (entries : list value) (p : parsed) :
  json_loads text = Decoded (VList entries) ->
  _parse_json json_loads text "hour" = Ok p ->
  exists fs, p = Hourly (mkHourlyForecastData fs)
    /\ List.length fs = List.length entries
    /\ forall i entry, nth_error entries i = Some entry ->
         exists f, nth_error fs i = Some f
           /\ py_getitem entry 0 = Ok (timestamp f)
           /\ py_getitem entry 1 = Ok (irradiance f).
Proof.
  intros Hjson. unfold _parse_json. rewrite Hjson. simpl.
  destruct (comprehension _ entries) as [fs|e] eqn:Hc; simpl; [|discriminate].
  intros [= <-]. exists fs. split; [reflexivity|].
  split; [apply (comprehension_length _ _ _ Hc)|].
  intros i entry Hi.
  destruct (comprehension_nth _ _ _ Hc i entry Hi) as (f & Hf & Hmk).
  exists f. split; [exact Hf|].
  destruct (py_getitem entry 0) as [t|]; simpl in Hmk; [|discriminate].
  destruct (py_getitem entry 1) as [v|]; simpl in Hmk; [|discriminate].
  injection Hmk as <-. split; reflexivity.
Qed.

Lemma parse_json_array_day (text : string) (entries : list value) (p : parsed) :
  json_loads text = Decoded (VList entries) ->
  _parse_json json_loads text "day" = Ok p ->
  exists fs, p = Daily fs
    /\ List.length fs = List.length entries
    /\ forall i entry, nth_error entries i = Some entry ->
         exists d, nth_error fs i = Some d
           /\ py_getitem entry 0 = Ok (d_timestamp d)
           /\ py_getitem entry 1 = Ok (total_irradiance d).
Proof.
  intros Hjson. unfold _parse_json. rewrite Hjson. simpl.
  destruct (comprehension _ entries) as [fs|e] eqn:Hc; simpl; [|discriminate].
  intros [= <-]. exists fs. split; [reflexivity|].
  split; [apply (comprehension_length _ _ _ Hc)|].
  intros i entry Hi.
  destruct (comprehension_nth _ _ _ Hc i entry Hi) as (d & Hd & Hmk).
  exists d. split; [exact Hd|].
  destruct (py_getitem entry 0) as [t|]; simpl in Hmk; [|discriminate].
  destruct (py_getitem entry 1) as [v|]; simpl in Hmk; [|discriminate].
  injection Hmk as <-. split; reflexivity.
Qed.

(** [HTTPError] and [URLError] never leave [fetch]. *)
Lemma fetch_catches_transport_errors (url ft : string) (log : list request)
    (e : transport_error) :
  fst (fetch network decode json_loads url ft log) <> Raise (UrllibExc e).
Proof.
  destruct (network (mkRequest url None)) as [r|[code reason fp|reason]|c msg] eqn:Hnet.
  - destruct (Z.eq_dec (status r) 200) as [Hst|Hst].
    + rewrite (fetch_status_200 _ _ _ _ Hnet Hst). simpl.
      destruct (decode (read r)) as [data|msg|c msg]; simpl; [|discriminate|discriminate].
      destruct (_parse_json json_loads data ft) as [p|e'] eqn:Hp; [discriminate|].
      apply parse_json_raises in Hp as (c & msg & ->). discriminate.
    + rewrite (fetch_other_status _ _ _ _ Hnet Hst). discriminate.
  - rewrite (fetch_http_error _ _ _ _ _ _ Hnet). simpl.
    destruct (decode fp); discriminate.
  - rewrite (fetch_url_error _ _ _ _ Hnet). discriminate.
  - rewrite (fetch_breaks _ _ _ _ _ Hnet). discriminate.
Qed.

(** With valid arguments an operation is its [try] statement. *)
Lemma call_valid (op : operation) (self : PVForecast) (lat lon length dst start : value) :
  valid op length dst start = true ->
  call network decode json_loads urlencode op self lat lon length dst start
  = fetch network decode json_loads
      (req_url (request_of urlencode op self lat lon length dst start))
      (forecast_type_of op).
Proof.
  destruct op; unfold valid, hourly_valid, daily_valid, call,
    get_hourly_irradiance, get_daily_irradiance;
    intros H; apply andb_prop in H as [H Hs]; apply andb_prop in H as [Hl Hd];
    rewrite Hl, Hd, Hs; reflexivity.
Qed.

Lemma request_of_eta (op : operation) (self : PVForecast) (lat lon length dst start : value) :
  mkRequest (req_url (request_of urlencode op self lat lon length dst start)) None
  = request_of urlencode op self lat lon length dst start.
Proof. destruct op; reflexivity. Qed.

End ClientFacts.

(** ** Argument checks *)

(** Membership is by [==]: [True] and [1.0] are in [[0, 1]], the [str]
    ["1"] and [None] are not; [24.0] is a valid length, [24.5] is not. *)
Example membership_is_by_equality :
  py_in_ints (VBool true) [0; 1] = true
  /\ py_in_ints (VFloat 1) [0; 1] = true
  /\ py_in_ints (VStr "1") [0; 1] = false
  /\ py_in_ints VNone [0; 1] = false
  /\ py_in_ints (VFloat 24) [24; 48; 72] = true
  /\ py_in_ints (VFloat 24.5) [24; 48; 72] = false
  /\ py_in_strs (VStr "Today") ["today"; "tomorrow"; "auto"] = false.
Proof. repeat split. Qed.

Example defaults_are_valid :
  hourly_valid default_hourly_length default_dst default_start = true
  /\ daily_valid default_daily_length default_dst default_start = true.
Proof. split; reflexivity. Qed.

(** The argument checks accept exactly the values that [==] one of the
    listed literals. *)
Lemma py_in_ints_spec (v : value) (l : list Z) :
  py_in_ints v l = true <-> exists n, In n l /\ py_eq_int v n = true.
Proof.
  unfold py_in_ints. rewrite existsb_exists. reflexivity.
Qed.

Lemma valid_start_spec (start : value) :
  py_in_strs start ["today"; "tomorrow"; "auto"] = true
  <-> start = VStr "today" \/ start = VStr "tomorrow" \/ start = VStr "auto".
Proof.
  unfold py_in_strs. simpl. split.
  - destruct start; simpl; try discriminate.
    rewrite !orb_true_iff, !String.eqb_eq.
    intros [->|[->|[->|H]]]; auto; discriminate.
  - intros [->|[->| ->]]; reflexivity.
Qed.

Section Claims.

Variable decode : bytes -> decoded string.
Variable json_loads : string -> decoded value.
Variable urlencode : list (string * value) -> string.

(** C4.  A [length] outside [[24, 48, 72]] makes [get_hourly_irradiance]
    raise the [ValueError] of its length check, and a [length] outside
    [[1, 2, 3]] makes [get_daily_irradiance] raise the one of its own:
    an [InvalidParameter] failure in both cases, and the request log is
    left as it was (no network call). *)
Theorem invalid_length_rejected :
  forall network self lat lon hourly_length daily_length dst start log,
    py_in_ints hourly_length [24; 48; 72] = false ->
    py_in_ints daily_length [1; 2; 3] = false ->
    get_hourly_irradiance network decode json_loads urlencode
        self lat lon hourly_length dst start log
      = (Raise (new_exc ValueError "Invalid length. Should be 24, 48 or 72."), log)
    /\ get_daily_irradiance network decode json_loads urlencode
        self lat lon daily_length dst start log
      = (Raise (new_exc ValueError "Invalid length. Should be 1, 2 or 3."), log)
    /\ failure_kind_of (new_exc ValueError "Invalid length. Should be 24, 48 or 72.")
      = Some InvalidParameter
    /\ failure_kind_of (new_exc ValueError "Invalid length. Should be 1, 2 or 3.")
      = Some InvalidParameter.
Proof.
  intros network self lat lon hl dl dst start log Hh Hd.
  unfold get_hourly_irradiance, get_daily_irradiance.
  rewrite Hh, Hd. repeat split.
Qed.

(** C5.  A [dst] outside [[0, 1]] makes both operations raise a
    [ValueError] (the one of the length check when the length is invalid
    too, else the one of the dst check): an [InvalidParameter] failure,
    with the request log left as it was. *)
Theorem invalid_dst_rejected :
  forall network op self lat lon length dst start log,
    py_in_ints dst [0; 1] = false ->
    exists msg,
      call network decode json_loads urlencode op self lat lon length dst start log
        = (Raise (new_exc ValueError msg), log)
      /\ failure_kind_of (new_exc ValueError msg) = Some InvalidParameter.
Proof.
  intros network op self lat lon length dst start log Hd.
  destruct op; unfold call, get_hourly_irradiance, get_daily_irradiance; rewrite Hd;
    match goal with |- context [py_in_ints length ?l] =>
      destruct (py_in_ints length l) end; simpl;
    eexists; split; reflexivity.
Qed.

(** C6.  A [start] outside [["today", "tomorrow", "auto"]] makes both
    operations raise a [ValueError] (the one of the first check that
    fails): an [InvalidParameter] failure, with the request log left as it
    was. *)
Theorem invalid_start_rejected :
  forall network op self lat lon length dst start log,
    py_in_strs start ["today"; "tomorrow"; "auto"] = false ->
    exists msg,
      call network decode json_loads urlencode op self lat lon length dst start log
        = (Raise (new_exc ValueError msg), log)
      /\ failure_kind_of (new_exc ValueError msg) = Some InvalidParameter.
Proof.
  intros network op self lat lon length dst start log Hs.
  destruct op; unfold call, get_hourly_irradiance, get_daily_irradiance; rewrite Hs;
    match goal with |- context [py_in_ints length ?l] =>
      destruct (py_in_ints length l) end;
    destruct (py_in_ints dst [0; 1]); simpl;
    eexists; split; reflexivity.
Qed.

(** ** The request *)


(** ** Responses *)

(** A successful call on a body that decodes to an array of pairs. *)
Lemma call_on_pairs (network : request -> transport_outcome) (op : operation)
    (self : PVForecast) (lat lon length dst start : value) (r : response)
    (text : string) (pairs : list (value * value)) :
  valid op length dst start = true ->
  network (request_of urlencode op self lat lon length dst start) = Returns r ->
  status r = 200 ->
  decode (read r) = Decoded text ->
  json_loads text = Decoded (VList (map (fun p => VList [fst p; snd p]) pairs)) ->
  outcome (call network decode json_loads urlencode op self lat lon length dst start)
  = Ok (match op with
        | HourlyOp =>
            Hourly (mkHourlyForecastData
                      (map (fun p => mkHourlyForecast (fst p) (snd p)) pairs))
        | DailyOp => Daily (map (fun p => mkDailyForecast (fst p) (snd p)) pairs)
        end).
Proof.
  intros Hv Hnet Hst Hdec Hjson. unfold outcome, run.
  rewrite (call_valid _ _ _ _ _ _ _ _ _ _ _ Hv).
  rewrite <- request_of_eta in Hnet.
  rewrite (fetch_status_200 _ _ _ _ _ _ _ Hnet Hst), Hdec. simpl.
  destruct op; simpl.
  - now rewrite (parse_json_pairs_hour _ _ _ Hjson).
  - now rewrite (parse_json_pairs_day _ _ _ Hjson).
Qed.

(** C1.  A call answered with status 200 and a body that decodes to a
    JSON array of one pair [[[t, v]]] returns one record, the hourly call
    inside its wrapper and the daily call as a bare list: the record's
    timestamp is the first element of the pair and its (total) irradiance
    the second.  For the body [[["2023-10-01T00:00:00Z", 1000]]] the
    timestamp is ["2023-10-01T00:00:00Z"] and the irradiance [1000]. *)
Theorem single_pair_gives_one_record :
  forall network op self lat lon length dst start r text t v,
    valid op length dst start = true ->
    network (request_of urlencode op self lat lon length dst start) = Returns r ->
    status r = 200 ->
    decode (read r) = Decoded text ->
    json_loads text = Decoded (VList [VList [t; v]]) ->
    outcome (call network decode json_loads urlencode op self lat lon length dst start)
    = Ok (match op with
          | HourlyOp => Hourly {| forecasts := [ {| timestamp := t; irradiance := v |} ] |}
          | DailyOp => Daily [ {| d_timestamp := t; total_irradiance := v |} ]
          end).
Proof.
  intros network op self lat lon length dst start r text t v Hv Hnet Hst Hdec Hjson.
  rewrite (call_on_pairs network op self lat lon length dst start r text
             [(t, v)] Hv Hnet Hst Hdec Hjson).
  destruct op; reflexivity.
Qed.

(** C2.  A call answered with status 200 and a body that decodes to an
    array of N pairs returns N records; the record at index [i] is made of
    the two elements of the pair at index [i]; and in a daily record the
    total irradiance is present exactly when the second element of its
    pair is not [null]. *)
Theorem records_follow_the_array :
  forall network op self lat lon length dst start r text pairs,
    valid op length dst start = true ->
    network (request_of urlencode op self lat lon length dst start) = Returns r ->
    status r = 200 ->
    decode (read r) = Decoded text ->
    json_loads text = Decoded (VList (map (fun p => VList [fst p; snd p]) pairs)) ->
    match op with
    | HourlyOp =>
        exists fs,
          outcome (call network decode json_loads urlencode op
                     self lat lon length dst start)
          = Ok (Hourly {| forecasts := fs |})
          /\ List.length fs = List.length pairs
          /\ forall i t v, nth_error pairs i = Some (t, v) ->
               nth_error fs i = Some {| timestamp := t; irradiance := v |}
    | DailyOp =>
        exists fs,
          outcome (call network decode json_loads urlencode op
                     self lat lon length dst start)
          = Ok (Daily fs)
          /\ List.length fs = List.length pairs
          /\ forall i t v, nth_error pairs i = Some (t, v) ->
               exists d, nth_error fs i = Some d
                 /\ d_timestamp d = t /\ total_irradiance d = v
                 /\ (is_present (total_irradiance d) = true <-> v <> VNone)
    end.
Proof.
  intros network op self lat lon length dst start r text pairs Hv Hnet Hst Hdec Hjson.
  pose proof (call_on_pairs network op self lat lon length dst start r text pairs
                Hv Hnet Hst Hdec Hjson) as Hcall.
  destruct op; eexists; (split; [exact Hcall|]); (split; [apply length_map|]);
    intros i t v Hi.
  - rewrite nth_error_map, Hi. reflexivity.
  - eexists. rewrite nth_error_map, Hi. simpl.
    repeat (split; [reflexivity|]).
    destruct v; simpl; split; congruence.
Qed.

(** C3.  A daily call answered with status 200 and a body that decodes
    to [[["2023-10-02T00:00:00Z", null]]] returns one record whose total
    irradiance is [None]: absent, and not the number zero. *)
Theorem null_total_is_absent :
  forall network self lat lon length dst start r text,
    daily_valid length dst start = true ->
    network (daily_request urlencode self lat lon length dst start) = Returns r ->
    status r = 200 ->
    decode (read r) = Decoded text ->
    json_loads text = Decoded (VList [VList [VStr "2023-10-02T00:00:00Z"; VNone]]) ->
    exists d,
      outcome (get_daily_irradiance network decode json_loads urlencode
                 self lat lon length dst start)
      = Ok (Daily [d])
      /\ d_timestamp d = VStr "2023-10-02T00:00:00Z"
      /\ total_irradiance d = VNone
      /\ is_present (total_irradiance d) = false
      /\ total_irradiance d <> VInt 0
      /\ py_eq_int (total_irradiance d) 0 = false.
Proof.
  intros network self lat lon length dst start r text Hv Hnet Hst Hdec Hjson.
  exists (mkDailyForecast (VStr "2023-10-02T00:00:00Z") VNone).
  split.
  - apply (call_on_pairs network DailyOp self lat lon length dst start r text
             [(VStr "2023-10-02T00:00:00Z", VNone)] Hv Hnet Hst Hdec Hjson).
  - simpl. repeat split; discriminate.
Qed.

(** C10.  When the transport returns a response whose status is not 200
    (201 and 204 included), both operations raise the [Exception] of the
    status check, which names the status, and return no data; the body is
    neither decoded nor parsed.  One request was sent. *)
Theorem only_status_200_is_parsed :
  forall network op self lat lon length dst start r log,
    valid op length dst start = true ->
    network (request_of urlencode op self lat lon length dst start) = Returns r ->
    status r <> 200 ->
    call network decode json_loads urlencode op self lat lon length dst start log
      = (Raise (new_exc Exception ("Failed to fetch data: HTTP " ++ str_int (status r))),
         (log ++ [request_of urlencode op self lat lon length dst start])%list)
    /\ failure_kind_of
         (new_exc Exception ("Failed to fetch data: HTTP " ++ str_int (status r)))
       = Some RemoteRequestFailed.
Proof.
  intros network op self lat lon length dst start r log Hv Hnet Hst.
  rewrite (call_valid _ _ _ _ _ _ _ _ _ _ _ Hv).
  rewrite <- request_of_eta in Hnet.
  rewrite (fetch_other_status _ _ _ _ _ _ _ Hnet Hst), request_of_eta.
  split; [reflexivity|].
  generalize (str_int (status r)); intros code. reflexivity.
Qed.

(** X10.  A response with status 200 whose body is not UTF-8 text: both
    operations raise the [UnicodeDecodeError] of [decode], unchanged and
    with no cause, after the one request. *)
Lemma undecodable_body_raises :
  forall network op self lat lon length dst start r msg log,
    valid op length dst start = true ->
    network (request_of urlencode op self lat lon length dst start) = Returns r ->
    status r = 200 ->
    decode (read r) = Malformed msg ->
    call network decode json_loads urlencode op self lat lon length dst start log
    = (Raise (Exc UnicodeDecodeError msg None),
       (log ++ [request_of urlencode op self lat lon length dst start])%list).
Proof.
  intros network op self lat lon length dst start r msg log Hv Hnet Hst Hdec.
  rewrite (call_valid _ _ _ _ _ _ _ _ _ _ _ Hv).
  rewrite <- request_of_eta in Hnet.
  now rewrite (fetch_status_200 _ _ _ _ _ _ _ Hnet Hst), Hdec, request_of_eta.
Qed.

(** X11.  An [HTTPError] whose body is not UTF-8 text: the handler's
    [e.read().decode()] raises, so both operations end in the
    [UnicodeDecodeError] of [decode] and the "Failed get data" [Exception]
    is never built. *)
Lemma undecodable_error_body_raises :
  forall network op self lat lon length dst start code reason fp msg log,
    valid op length dst start = true ->
    network (request_of urlencode op self lat lon length dst start)
      = Fails (HTTPError code reason fp) ->
    decode fp = Malformed msg ->
    call network decode json_loads urlencode op self lat lon length dst start log
    = (Raise (Exc UnicodeDecodeError msg None),
       (log ++ [request_of urlencode op self lat lon length dst start])%list).
Proof.
  intros network op self lat lon length dst start code reason fp msg log Hv Hnet Hdec.
  rewrite (call_valid _ _ _ _ _ _ _ _ _ _ _ Hv).
  rewrite <- request_of_eta in Hnet.
  now rewrite (fetch_http_error _ _ _ _ _ _ _ _ _ Hnet), Hdec, request_of_eta.
Qed.

(** An operation sends at most one request, whatever its arguments. *)
Lemma at_most_one_request :
  forall network op self lat lon length dst start log,
    exists sent,
      snd (call network decode json_loads urlencode op self lat lon length dst start log)
      = (log ++ sent)%list
      /\ (List.length sent <= 1)%nat.
Proof.
  intros network op self lat lon length dst start log.
  destruct (valid op length dst start) eqn:Hv.
  - rewrite (call_valid _ _ _ _ _ _ _ _ _ _ _ Hv), fetch_log.
    eexists. split; [reflexivity|]. simpl. lia.
  - exists []. rewrite app_nil_r. split; [|simpl; lia].
    destruct op; unfold valid, hourly_valid, daily_valid in Hv;
      unfold call, get_hourly_irradiance, get_daily_irradiance;
      match goal with |- context [py_in_ints length ?l] =>
        destruct (py_in_ints length l) end;
      destruct (py_in_ints dst [0; 1]);
      destruct (py_in_strs start ["today"; "tomorrow"; "auto"]);
      try discriminate; reflexivity.
Qed.

(** ** Failures *)

(** C8, as the code has it.  For both operations: when [urlopen] raises
    [HTTPError] and the error body decodes to text, the call raises the
    [Exception] with message "Failed get data: <reason> - <body text>" and
    the [HTTPError] as cause; when [urlopen] raises [URLError], the call
    raises the [Exception] with message "Failed to reach server: <reason>"
    and the [URLError] as cause.  Both exceptions have the class
    [Exception]: they are told apart by the start of the message (the
    [RemoteRequestFailed] and [TransportUnreachable] failures), and from an
    [InvalidParameter] failure by its class [ValueError]. *)
Theorem failures_are_told_apart :
  forall net_http net_url op self lat lon length dst start code reason fp body why log,
    valid op length dst start = true ->
    net_http (request_of urlencode op self lat lon length dst start)
      = Fails (HTTPError code reason fp) ->
    decode fp = Decoded body ->
    net_url (request_of urlencode op self lat lon length dst start)
      = Fails (URLError why) ->
    call net_http decode json_loads urlencode op self lat lon length dst start log
      = (Raise (Exc Exception ("Failed get data: " ++ reason ++ " - " ++ body)
                  (Some (HTTPError code reason fp))),
         (log ++ [request_of urlencode op self lat lon length dst start])%list)
    /\ call net_url decode json_loads urlencode op self lat lon length dst start log
      = (Raise (Exc Exception ("Failed to reach server: " ++ why) (Some (URLError why))),
         (log ++ [request_of urlencode op self lat lon length dst start])%list)
    /\ occurs_in reason ("Failed get data: " ++ reason ++ " - " ++ body)
    /\ occurs_in body ("Failed get data: " ++ reason ++ " - " ++ body)
    /\ occurs_in why ("Failed to reach server: " ++ why)
    /\ startswith ("Failed get data: " ++ reason ++ " - " ++ body) "Failed get data: " = true
    /\ startswith ("Failed to reach server: " ++ why) "Failed get data: " = false
    /\ failure_kind_of (Exc Exception ("Failed get data: " ++ reason ++ " - " ++ body)
                          (Some (HTTPError code reason fp)))
       = Some RemoteRequestFailed
    /\ failure_kind_of (Exc Exception ("Failed to reach server: " ++ why)
                          (Some (URLError why)))
       = Some TransportUnreachable
    /\ (forall c msg cause,
          failure_kind_of (Exc c msg cause) = Some InvalidParameter ->
          c = ValueError /\ c <> Exception).
Proof.
  intros net_http net_url op self lat lon length dst start code reason fp body why log
    Hv Hhttp Hdec Hurl.
  rewrite !(call_valid _ _ _ _ _ _ _ _ _ _ _ Hv).
  rewrite <- request_of_eta in Hhttp, Hurl.
  rewrite (fetch_http_error _ _ _ _ _ _ _ _ _ Hhttp), Hdec.
  rewrite (fetch_url_error _ _ _ _ _ _ _ Hurl), request_of_eta.
  split; [reflexivity|]. split; [reflexivity|].
  split; [apply occurs_in_middle|].
  split; [rewrite <- !str_app_assoc; apply occurs_in_prefix|].
  split; [apply occurs_in_prefix|].
  split; [reflexivity|]. split; [reflexivity|].
  split; [reflexivity|]. split; [reflexivity|].
  intros c msg cause Hk.
  destruct c; unfold failure_kind_of in Hk; try discriminate;
    [exfalso|split; [reflexivity|discriminate]].
  destruct (startswith msg "Failed to reach server: "); [discriminate|].
  destruct (startswith msg "Failed get data: "); [discriminate|].
  destruct (startswith msg "Failed to fetch data: HTTP "); discriminate.
Qed.

End Claims.

(** * Further properties of the client *)

Section Further.

Variable decode : bytes -> decoded string.
Variable json_loads : string -> decoded value.
Variable urlencode : list (string * value) -> string.

(** ** The argument checks, in order *)

(** A call with an invalid argument: the message is the one of the first
    check that fails, in the order length, dst, start. *)
Lemma call_invalid (network : request -> transport_outcome) (op : operation)
    (self : PVForecast) (lat lon length dst start : value) (log : list request) :
  valid op length dst start = false ->
  call network decode json_loads urlencode op self lat lon length dst start log
  = (Raise (new_exc ValueError
       (if negb (py_in_ints length (match op with
                                    | HourlyOp => [24; 48; 72]
                                    | DailyOp => [1; 2; 3]
                                    end))
        then match op with
             | HourlyOp => "Invalid length. Should be 24, 48 or 72."
             | DailyOp => "Invalid length. Should be 1, 2 or 3."
             end
        else if negb (py_in_ints dst [0; 1])
        then "Invalid dst. Should be 0 or 1."
        else "Invalid start. Should be 'today', 'tomorrow', or 'auto'.")),
     log).
Proof.
  destruct op; unfold valid, hourly_valid, daily_valid, call,
    get_hourly_irradiance, get_daily_irradiance;
    match goal with |- context [py_in_ints length ?l] =>
      destruct (py_in_ints length l) end;
    destruct (py_in_ints dst [0; 1]);
    destruct (py_in_strs start ["today"; "tomorrow"; "auto"]);
    simpl; intros H; try discriminate; reflexivity.
Qed.


(** X2.  When an argument is invalid, the [ValueError] raised is the one of
    the first failing check in the order length, dst, start: a bad length
    hides a bad dst or start, and a bad dst hides a bad start. *)
Theorem first_failing_check_decides :
  forall network op self lat lon length dst start log,
    valid op length dst start = false ->
    fst (call network decode json_loads urlencode op self lat lon length dst start log)
    = Raise (new_exc ValueError
        (if negb (py_in_ints length (match op with
                                     | HourlyOp => [24; 48; 72]
                                     | DailyOp => [1; 2; 3]
                                     end))
         then match op with
              | HourlyOp => "Invalid length. Should be 24, 48 or 72."
              | DailyOp => "Invalid length. Should be 1, 2 or 3."
              end
         else if negb (py_in_ints dst [0; 1])
         then "Invalid dst. Should be 0 or 1."
         else "Invalid start. Should be 'today', 'tomorrow', or 'auto'.")).
Proof.
  intros network op self lat lon length dst start log Hv.
  now rewrite (call_invalid _ _ _ _ _ _ _ _ _ Hv).
Qed.

(** ** What a call can end in *)

(** [_parse_json] returns the wrapper for ["hour"] and a bare list for
    ["day"]. *)
Lemma parse_json_shape (data : string) (op : operation) (p : parsed) :
  _parse_json json_loads data (forecast_type_of op) = Ok p ->
  match op with
  | HourlyOp => exists d, p = Hourly d
  | DailyOp => exists l, p = Daily l
  end.
Proof.
  unfold _parse_json. destruct (json_loads data) as [raw|msg|c msg]; simpl;
    [|discriminate|discriminate].
  destruct op; simpl;
    (destruct (py_iter raw) as [entries|]; simpl; [|discriminate]);
    (destruct (comprehension _ entries) as [fs|]; simpl; [|discriminate]);
    intros [= <-]; eauto.
Qed.

(** X3.  A call returns data only when all of this holds: the three checked
    arguments are valid, [urlopen] returned a response, its status is 200,
    its body decodes to text, and [_parse_json] accepts the text.  The data
    is then the [HourlyForecastData] wrapper for the hourly operation and a
    bare list of [DailyForecast] for the daily one. *)
Theorem success_requires_a_parsed_200_response :
  forall network op self lat lon length dst start log p,
    fst (call network decode json_loads urlencode op self lat lon length dst start log)
      = Ok p ->
    valid op length dst start = true
    /\ (exists r text,
          network (request_of urlencode op self lat lon length dst start) = Returns r
          /\ status r = 200
          /\ decode (read r) = Decoded text
          /\ _parse_json json_loads text (forecast_type_of op) = Ok p)
    /\ match op with
       | HourlyOp => exists d, p = Hourly d
       | DailyOp => exists l, p = Daily l
       end.
Proof.
  intros network op self lat lon length dst start log p.
  destruct (valid op length dst start) eqn:Hv.
  2: { rewrite (call_invalid _ _ _ _ _ _ _ _ _ Hv). discriminate. }
  rewrite (call_valid _ _ _ _ _ _ _ _ _ _ _ Hv).
  pose proof (request_of_eta urlencode op self lat lon length dst start) as Heta.
  destruct (network (request_of urlencode op self lat lon length dst start))
    as [r|[code reason fp|reason]|c msg] eqn:Hnet; rewrite <- Heta in Hnet.
  - destruct (Z.eq_dec (status r) 200) as [Hst|Hst].
    + rewrite (fetch_status_200 _ _ _ _ _ _ _ Hnet Hst). simpl.
      destruct (decode (read r)) as [text|msg|c msg] eqn:Hdec; simpl;
        [|discriminate|discriminate].
      intros Hp. split; [reflexivity|]. split.
      * exists r, text. auto.
      * apply (parse_json_shape _ _ _ Hp).
    + rewrite (fetch_other_status _ _ _ _ _ _ _ Hnet Hst). discriminate.
  - rewrite (fetch_http_error _ _ _ _ _ _ _ _ _ Hnet). simpl.
    destruct (decode fp); discriminate.
  - rewrite (fetch_url_error _ _ _ _ _ _ _ Hnet). discriminate.
  - rewrite (fetch_breaks _ _ _ _ _ _ _ _ Hnet). discriminate.
Qed.

(** ** Bodies of any shape *)

(** A call answered with status 200 and text is [_parse_json] of the
    text. *)
Lemma call_on_text (network : request -> transport_outcome) (op : operation)
    (self : PVForecast) (lat lon length dst start : value) (r : response) (text : string) :
  valid op length dst start = true ->
  network (request_of urlencode op self lat lon length dst start) = Returns r ->
  status r = 200 ->
  decode (read r) = Decoded text ->
  outcome (call network decode json_loads urlencode op self lat lon length dst start)
  = _parse_json json_loads text (forecast_type_of op).
Proof.
  intros Hv Hnet Hst Hdec. unfold outcome, run.
  rewrite (call_valid _ _ _ _ _ _ _ _ _ _ _ Hv).
  rewrite <- request_of_eta in Hnet.
  now rewrite (fetch_status_200 _ _ _ _ _ _ _ Hnet Hst), Hdec.
Qed.

(** Rows of a JSON array of arrays: a record needs elements 0 and 1. *)
Lemma comprehension_rows {B} (mk : value -> value -> B) (rows : list (list value)) :
  comprehension
    (fun entry => (t <- py_getitem entry 0 ;; i <- py_getitem entry 1 ;; Ok (mk t i))%res)
    (map VList rows)
  = if forallb (fun row => (2 <=? List.length row)%nat) rows
    then Ok (map (fun row => mk (nth 0 row VNone) (nth 1 row VNone)) rows)
    else Raise (Exc IndexError "list index out of range" None).
Proof.
  induction rows as [|row rows IH]; [reflexivity|].
  cbn [map comprehension forallb]. rewrite IH.
  destruct row as [|a [|b row]]; try reflexivity.
  cbn. destruct (forallb _ rows); reflexivity.
Qed.

(** X5.  On a 200 response whose body decodes to a JSON array of arrays,
    a call succeeds exactly when every inner array has at least two
    elements.  It then returns one record per inner array, in order, made
    of elements 0 and 1; further elements are ignored.  Otherwise it raises
    [IndexError] and returns no record at all. *)
Theorem array_of_arrays_needs_two_elements :
  forall network op self lat lon length dst start r text rows,
    valid op length dst start = true ->
    network (request_of urlencode op self lat lon length dst start) = Returns r ->
    status r = 200 ->
    decode (read r) = Decoded text ->
    json_loads text = Decoded (VList (map VList rows)) ->
    outcome (call network decode json_loads urlencode op self lat lon length dst start)
    = if forallb (fun row => (2 <=? List.length row)%nat) rows
      then Ok (match op with
               | HourlyOp =>
                   Hourly {| forecasts :=
                     map (fun row => {| timestamp := nth 0 row VNone;
                                        irradiance := nth 1 row VNone |}) rows |}
               | DailyOp =>
                   Daily (map (fun row => {| d_timestamp := nth 0 row VNone;
                                             total_irradiance := nth 1 row VNone |}) rows)
               end)
      else Raise (Exc IndexError "list index out of range" None).
Proof.
  intros network op self lat lon length dst start r text rows Hv Hnet Hst Hdec Hjson.
  rewrite (call_on_text network op self lat lon length dst start r text Hv Hnet Hst Hdec).
  unfold _parse_json. rewrite Hjson.
  destruct op; cbn [forecast_type_of of_decoded rbind String.eqb Ascii.eqb Bool.eqb py_iter];
    rewrite comprehension_rows;
    destruct (forallb _ rows); reflexivity.
Qed.

(** The records of an accepted list of entries. *)
Lemma comprehension_entries {B} (mk : value -> value -> B) (entries : list value)
    (fs : list B) :
  comprehension
    (fun entry => (t <- py_getitem entry 0 ;; i <- py_getitem entry 1 ;; Ok (mk t i))%res)
    entries = Ok fs ->
  List.length fs = List.length entries
  /\ forall i entry, nth_error entries i = Some entry ->
       exists t v, nth_error fs i = Some (mk t v)
         /\ py_getitem entry 0 = Ok t /\ py_getitem entry 1 = Ok v.
Proof.
  intros Hc. split; [apply (comprehension_length _ _ _ Hc)|].
  intros i entry Hi.
  destruct (comprehension_nth _ _ _ Hc i entry Hi) as (f & Hf & Hmk).
  destruct (py_getitem entry 0) as [t|]; simpl in Hmk; [|discriminate].
  destruct (py_getitem entry 1) as [v|]; simpl in Hmk; [|discriminate].
  injection Hmk as <-. eauto.
Qed.

(** X6.  Whatever JSON value a 200 response decodes to, when the call
    accepts it the result has one record per item that iterating the value
    yields (the elements of an array, the keys of an object, the characters
    of a string), in that order, and the record for an item holds [item[0]]
    and [item[1]].  Nothing checks that the value is an array or that the
    items are arrays. *)
Theorem accepted_value_is_followed_item_by_item :
  forall network op self lat lon length dst start r text raw entries p,
    valid op length dst start = true ->
    network (request_of urlencode op self lat lon length dst start) = Returns r ->
    status r = 200 ->
    decode (read r) = Decoded text ->
    json_loads text = Decoded raw ->
    py_iter raw = Ok entries ->
    outcome (call network decode json_loads urlencode op self lat lon length dst start)
      = Ok p ->
    match p with
    | Hourly d =>
        List.length (forecasts d) = List.length entries
        /\ forall i entry, nth_error entries i = Some entry ->
             exists t v,
               nth_error (forecasts d) i = Some {| timestamp := t; irradiance := v |}
               /\ py_getitem entry 0 = Ok t /\ py_getitem entry 1 = Ok v
    | Daily l =>
        List.length l = List.length entries
        /\ forall i entry, nth_error entries i = Some entry ->
             exists t v,
               nth_error l i = Some {| d_timestamp := t; total_irradiance := v |}
               /\ py_getitem entry 0 = Ok t /\ py_getitem entry 1 = Ok v
    end.
Proof.
  intros network op self lat lon length dst start r text raw entries p
    Hv Hnet Hst Hdec Hjson Hiter.
  rewrite (call_on_text network op self lat lon length dst start r text Hv Hnet Hst Hdec).
  unfold _parse_json. rewrite Hjson.
  destruct op; cbn [forecast_type_of of_decoded rbind String.eqb Ascii.eqb Bool.eqb];
    rewrite Hiter; cbn [rbind];
    (destruct (comprehension _ entries) as [fs|] eqn:Hc; cbn [rbind]; [|discriminate]);
    intros [= <-]; apply (comprehension_entries _ _ _ Hc).
Qed.

(** X7.  On a 200 response whose body decodes to a JSON array, the first
    entry that cannot give a record decides the outcome: when the entries
    before it are pairs and subscripting it by 0 and then by 1 raises [e],
    the call raises [e], whatever follows that entry, and returns none of
    the records already built. *)
Theorem first_bad_entry_decides :
  forall network op self lat lon length dst start r text good bad rest e,
    valid op length dst start = true ->
    network (request_of urlencode op self lat lon length dst start) = Returns r ->
    status r = 200 ->
    decode (read r) = Decoded text ->
    json_loads text
      = Decoded (VList (map (fun p => VList [fst p; snd p]) good ++ bad :: rest)) ->
    (t <- py_getitem bad 0 ;; py_getitem bad 1)%res = Raise e ->
    outcome (call network decode json_loads urlencode op self lat lon length dst start)
    = Raise e.
Proof.
  intros network op self lat lon length dst start r text good bad rest e
    Hv Hnet Hst Hdec Hjson Hbad.
  rewrite (call_on_text network op self lat lon length dst start r text Hv Hnet Hst Hdec).
  assert (Hc : forall (B : Type) (mk : value -> value -> B),
    comprehension
      (fun entry => (t <- py_getitem entry 0 ;; i <- py_getitem entry 1 ;; Ok (mk t i))%res)
      (map (fun p => VList [fst p; snd p]) good ++ bad :: rest) = Raise e).
  { intros B mk. clear Hjson.
    induction good as [|[t v] good IH]; cbn [map app comprehension].
    - destruct (py_getitem bad 0) as [t|e0]; cbn [rbind] in *.
      + rewrite Hbad. reflexivity.
      + injection Hbad as ->. reflexivity.
    - cbn. cbn in IH. rewrite IH. reflexivity. }
  unfold _parse_json. rewrite Hjson.
  destruct op; cbn [forecast_type_of of_decoded rbind String.eqb Ascii.eqb Bool.eqb py_iter];
    rewrite Hc; reflexivity.
Qed.

(** X8.  A 200 response whose body decodes to [null], a boolean or a
    number (a value of type [NoneType], [bool], [int] or [float]) makes the
    call raise the [TypeError] of iterating it, which names that type. *)
Theorem scalar_body_is_not_iterable :
  forall network op self lat lon length dst start r text raw,
    valid op length dst start = true ->
    network (request_of urlencode op self lat lon length dst start) = Returns r ->
    status r = 200 ->
    decode (read r) = Decoded text ->
    json_loads text = Decoded raw ->
    existsb (String.eqb (type_name raw)) ["NoneType"; "bool"; "int"; "float"] = true ->
    outcome (call network decode json_loads urlencode op self lat lon length dst start)
    = Raise (Exc TypeError ("'" ++ type_name raw ++ "' object is not iterable") None).
Proof.
  intros network op self lat lon length dst start r text raw Hv Hnet Hst Hdec Hjson Hraw.
  rewrite (call_on_text network op self lat lon length dst start r text Hv Hnet Hst Hdec).
  unfold _parse_json. rewrite Hjson.
  destruct raw; try discriminate; destruct op; reflexivity.
Qed.

(** ** The two operations on the same answer *)

(** The daily records are the hourly records under another constructor, and
    the two comprehensions fail alike. *)
Lemma comprehension_daily_of_hourly (entries : list value) :
  comprehension
    (fun entry =>
       (t <- py_getitem entry 0 ;; i <- py_getitem entry 1 ;; Ok (mkDailyForecast t i))%res)
    entries
  = match comprehension
            (fun entry =>
               (t <- py_getitem entry 0 ;; i <- py_getitem entry 1 ;;
                Ok (mkHourlyForecast t i))%res)
            entries with
    | Ok fs => Ok (map (fun f => mkDailyForecast (timestamp f) (irradiance f)) fs)
    | Raise e => Raise e
    end.
Proof.
  induction entries as [|entry entries IH]; [reflexivity|].
  cbn [comprehension].
  destruct (py_getitem entry 0) as [t|]; cbn [rbind]; [|reflexivity].
  destruct (py_getitem entry 1) as [v|]; cbn [rbind]; [|reflexivity].
  rewrite IH. clear IH.
  match goal with
  | |- context [match ?c with Ok _ => _ | Raise _ => _ end] => destruct c
  end; reflexivity.
Qed.

Lemma parse_json_day_of_hour (text : string) :
  _parse_json json_loads text "day"
  = match _parse_json json_loads text "hour" with
    | Ok (Hourly d) =>
        Ok (Daily (map (fun f => mkDailyForecast (timestamp f) (irradiance f))
                     (forecasts d)))
    | Ok (Daily l) => Ok (Daily l)
    | Raise e => Raise e
    end.
Proof.
  unfold _parse_json. destruct (json_loads text) as [raw|msg|c msg];
    [|reflexivity|reflexivity].
  cbn [of_decoded rbind String.eqb Ascii.eqb Bool.eqb].
  destruct (py_iter raw) as [entries|]; cbn [rbind]; [|reflexivity].
  rewrite comprehension_daily_of_hourly.
  destruct (comprehension _ entries); reflexivity.
Qed.

(** X9.  When [urlopen] does the same for the request of a daily call as
    for the request of an hourly call (the same response, or the same
    error), the daily call ends as the hourly call does: it raises the same
    exception, or returns the same timestamps and values, record by record,
    as a bare list of [DailyForecast] in place of the wrapper.  Apart from
    the length check and the [type] parameter, the two operations are the
    same. *)
Theorem daily_call_mirrors_hourly_call :
  forall network self lat lon hourly_length daily_length dst start answer,
    hourly_valid hourly_length dst start = true ->
    daily_valid daily_length dst start = true ->
    network (hourly_request urlencode self lat lon hourly_length dst start) = answer ->
    network (daily_request urlencode self lat lon daily_length dst start) = answer ->
    outcome (get_daily_irradiance network decode json_loads urlencode
               self lat lon daily_length dst start)
    = match outcome (get_hourly_irradiance network decode json_loads urlencode
                       self lat lon hourly_length dst start) with
      | Ok (Hourly d) =>
          Ok (Daily (map (fun f => {| d_timestamp := timestamp f;
                                      total_irradiance := irradiance f |})
                       (forecasts d)))
      | Ok (Daily l) => Ok (Daily l)
      | Raise e => Raise e
      end.
Proof.
  intros network self lat lon hl dl dst start answer Hh Hd Hnh Hnd.
  unfold outcome, run.
  rewrite (call_valid network decode json_loads urlencode HourlyOp self lat lon hl dst start Hh
           : get_hourly_irradiance _ _ _ _ _ _ _ _ _ _ = _).
  rewrite (call_valid network decode json_loads urlencode DailyOp self lat lon dl dst start Hd
           : get_daily_irradiance _ _ _ _ _ _ _ _ _ _ = _).
  cbn [forecast_type_of request_of hourly_request daily_request req_url] in *.
  destruct answer as [r|[code reason fp|reason]|c msg].
  4: { now rewrite (fetch_breaks _ _ _ _ _ _ _ _ Hnh), (fetch_breaks _ _ _ _ _ _ _ _ Hnd). }
  - destruct (Z.eq_dec (status r) 200) as [Hst|Hst].
    + rewrite (fetch_status_200 _ _ _ _ _ _ _ Hnh Hst),
              (fetch_status_200 _ _ _ _ _ _ _ Hnd Hst).
      cbn [fst]. destruct (decode (read r)) as [text|msg|c msg]; cbn [of_decoded rbind];
        [|reflexivity|reflexivity].
      apply parse_json_day_of_hour.
    + now rewrite (fetch_other_status _ _ _ _ _ _ _ Hnh Hst),
                  (fetch_other_status _ _ _ _ _ _ _ Hnd Hst).
  - rewrite (fetch_http_error _ _ _ _ _ _ _ _ _ Hnh),
            (fetch_http_error _ _ _ _ _ _ _ _ _ Hnd).
    cbn [fst]. destruct (decode fp); reflexivity.
  - now rewrite (fetch_url_error _ _ _ _ _ _ _ Hnh),
                (fetch_url_error _ _ _ _ _ _ _ Hnd).
Qed.

(** ** Exceptions that pass through *)

(** X4.  Neither [HTTPError] nor [URLError] ever reaches the caller: every
    exception that leaves a call is another exception, and when it has a
    cause (set by [raise ... from e]) it is a plain [Exception] whose
    cause is the [HTTPError] or [URLError] that [urlopen] raised for the
    request of this call. *)
Theorem transport_errors_never_reach_the_caller :
  forall network op self lat lon length dst start log e,
    fst (call network decode json_loads urlencode op self lat lon length dst start log)
      = Raise e ->
    exists c msg cause,
      e = Exc c msg cause
      /\ match cause with
         | Some te =>
             c = Exception
             /\ network (request_of urlencode op self lat lon length dst start) = Fails te
         | None => True
         end.
Proof.
  intros network op self lat lon length dst start log e H.
  destruct (valid op length dst start) eqn:Hv.
  2: { rewrite (call_invalid _ _ _ _ _ _ _ _ _ Hv) in H. injection H as <-.
       unfold new_exc. do 3 eexists. split; [reflexivity|exact I]. }
  rewrite (call_valid _ _ _ _ _ _ _ _ _ _ _ Hv) in H.
  pose proof (request_of_eta urlencode op self lat lon length dst start) as Heta.
  destruct (network (request_of urlencode op self lat lon length dst start))
    as [r|[code reason fp|reason]|c msg] eqn:Hnet; rewrite <- Heta in Hnet.
  - destruct (Z.eq_dec (status r) 200) as [Hst|Hst].
    + rewrite (fetch_status_200 _ _ _ _ _ _ _ Hnet Hst) in H. cbn [fst] in H.
      destruct (decode (read r)) as [text|msg|c msg]; cbn [of_decoded rbind] in H.
      * apply parse_json_raises in H as (c & msg & ->).
        do 3 eexists. split; [reflexivity|exact I].
      * injection H as <-. do 3 eexists. split; [reflexivity|exact I].
      * injection H as <-. do 3 eexists. split; [reflexivity|exact I].
    + rewrite (fetch_other_status _ _ _ _ _ _ _ Hnet Hst) in H. injection H as <-.
      do 3 eexists. split; [reflexivity|exact I].
  - rewrite (fetch_http_error _ _ _ _ _ _ _ _ _ Hnet) in H. cbn [fst] in H.
    destruct (decode fp) as [body|msg|c msg]; cbn [of_decoded rbind] in H;
      injection H as <-; do 3 eexists; (split; [reflexivity|]); cbn; auto.
  - rewrite (fetch_url_error _ _ _ _ _ _ _ Hnet) in H. injection H as <-.
    do 3 eexists. split; [reflexivity|]. cbn. auto.
  - rewrite (fetch_breaks _ _ _ _ _ _ _ _ Hnet) in H. injection H as <-.
    do 3 eexists. split; [reflexivity|exact I].
Qed.

(** ** Parse errors *)

(** The outcome of [_parse_json] on a decoded value: the records of the
    items, or the exception of iterating the value or of subscripting one
    of its items. *)
Lemma parse_json_decoded_cases (text : string) (op : operation) (raw : value) :
  json_loads text = Decoded raw ->
  (exists entries,
     py_iter raw = Ok entries
     /\ match op with
        | HourlyOp =>
            exists fs,
              _parse_json json_loads text (forecast_type_of op)
                = Ok (Hourly {| forecasts := fs |})
              /\ List.length fs = List.length entries
              /\ forall i entry, nth_error entries i = Some entry ->
                   exists t v,
                     nth_error fs i = Some {| timestamp := t; irradiance := v |}
                     /\ py_getitem entry 0 = Ok t /\ py_getitem entry 1 = Ok v
        | DailyOp =>
            exists fs,
              _parse_json json_loads text (forecast_type_of op) = Ok (Daily fs)
              /\ List.length fs = List.length entries
              /\ forall i entry, nth_error entries i = Some entry ->
                   exists t v,
                     nth_error fs i = Some {| d_timestamp := t; total_irradiance := v |}
                     /\ py_getitem entry 0 = Ok t /\ py_getitem entry 1 = Ok v
        end)
  \/ (exists c msg,
        _parse_json json_loads text (forecast_type_of op) = Raise (Exc c msg None)
        /\ (c = TypeError \/ c = IndexError \/ c = KeyError)
        /\ (py_iter raw = Raise (Exc c msg None)
            \/ exists entries entry,
                 py_iter raw = Ok entries /\ In entry entries
                 /\ (t <- py_getitem entry 0 ;; py_getitem entry 1)%res
                    = Raise (Exc c msg None))).
Proof.
  intros Hjson. unfold _parse_json. rewrite Hjson. cbn [of_decoded rbind].
  assert (Hfail : forall (B : Type) (mk : value -> value -> B) entries e,
    comprehension
      (fun entry => (t <- py_getitem entry 0 ;; i <- py_getitem entry 1 ;; Ok (mk t i))%res)
      entries = Raise e ->
    exists c msg, e = Exc c msg None
      /\ (c = TypeError \/ c = IndexError \/ c = KeyError)
      /\ exists entry, In entry entries
           /\ (t <- py_getitem entry 0 ;; py_getitem entry 1)%res = Raise e).
  { intros B mk entries e Hc.
    destruct (records_raise _ _ _ Hc) as (c & msg & -> & Hcls).
    exists c, msg. split; [reflexivity|]. split; [exact Hcls|].
    apply comprehension_raises in Hc as (entry & Hin & Hx).
    exists entry. split; [exact Hin|].
    destruct (py_getitem entry 0) as [t|e0]; cbn [rbind] in *;
      [|injection Hx as ->; reflexivity].
    destruct (py_getitem entry 1) as [v|e1]; cbn [rbind] in *; [discriminate|].
    now injection Hx as ->. }
  destruct (py_iter raw) as [entries|e0] eqn:Hiter.
  2: { right. destruct (py_iter_raises _ _ Hiter) as [msg ->].
       exists TypeError, msg.
       destruct op; (split; [reflexivity|]); (split; [left; reflexivity|]);
         left; reflexivity. }
  destruct op; cbn [forecast_type_of rbind String.eqb Ascii.eqb Bool.eqb].
  - destruct (comprehension _ entries) as [fs|e] eqn:Hc; cbn [rbind].
    + left. exists entries. split; [reflexivity|]. exists fs. split; [reflexivity|].
      apply (comprehension_entries _ _ _ Hc).
    + right. destruct (Hfail _ _ _ _ Hc) as (c & msg & -> & Hcls & entry & Hin & Hx).
      exists c, msg. split; [reflexivity|]. split; [exact Hcls|]. right. eauto.
  - destruct (comprehension _ entries) as [fs|e] eqn:Hc; cbn [rbind].
    + left. exists entries. split; [reflexivity|]. exists fs. split; [reflexivity|].
      apply (comprehension_entries _ _ _ Hc).
    + right. destruct (Hfail _ _ _ _ Hc) as (c & msg & -> & Hcls & entry & Hin & Hx).
      exists c, msg. split; [reflexivity|]. split; [exact Hcls|]. right. eauto.
Qed.

(** C7, as the code has it.  For both operations, on a response with
    status 200 nothing wraps what decoding and parsing raise; one request
    was sent, and:
    - a body that is not UTF-8 text raises the [UnicodeDecodeError] of
      [decode], and text that is malformed JSON raises the
      [JSONDecodeError] of [json.loads]; neither is a [RemoteRequestFailed]
      failure;
    - any other exception of [decode] or [json.loads] is raised unchanged;
    - when [json.loads] returns a value, the call either returns one
      record per item that iterating the value yields, in order, made of
      [item[0]] and [item[1]], or raises a [TypeError], [IndexError] or
      [KeyError], which is the exception of iterating the value or of
      subscripting one of its items by 0 and then 1, and is not a
      [RemoteRequestFailed] failure. *)
Theorem parse_errors_pass_unchanged :
  forall network op self lat lon length dst start r log,
    valid op length dst start = true ->
    network (request_of urlencode op self lat lon length dst start) = Returns r ->
    status r = 200 ->
    snd (call network decode json_loads urlencode op self lat lon length dst start log)
      = (log ++ [request_of urlencode op self lat lon length dst start])%list
    /\ match decode (read r) with
       | Malformed msg =>
           fst (call network decode json_loads urlencode op
                  self lat lon length dst start log)
             = Raise (Exc UnicodeDecodeError msg None)
           /\ failure_kind_of (Exc UnicodeDecodeError msg None) <> Some RemoteRequestFailed
       | Aborted c msg =>
           fst (call network decode json_loads urlencode op
                  self lat lon length dst start log)
             = Raise (Exc c msg None)
       | Decoded text =>
           match json_loads text with
           | Malformed msg =>
               fst (call network decode json_loads urlencode op
                      self lat lon length dst start log)
                 = Raise (Exc JSONDecodeError msg None)
               /\ failure_kind_of (Exc JSONDecodeError msg None)
                  <> Some RemoteRequestFailed
           | Aborted c msg =>
               fst (call network decode json_loads urlencode op
                      self lat lon length dst start log)
                 = Raise (Exc c msg None)
           | Decoded raw =>
               (exists entries,
                  py_iter raw = Ok entries
                  /\ match op with
                     | HourlyOp =>
                         exists fs,
                           fst (call network decode json_loads urlencode op
                                  self lat lon length dst start log)
                             = Ok (Hourly {| forecasts := fs |})
                           /\ List.length fs = List.length entries
                           /\ forall i entry, nth_error entries i = Some entry ->
                                exists t v,
                                  nth_error fs i
                                    = Some {| timestamp := t; irradiance := v |}
                                  /\ py_getitem entry 0 = Ok t
                                  /\ py_getitem entry 1 = Ok v
                     | DailyOp =>
                         exists fs,
                           fst (call network decode json_loads urlencode op
                                  self lat lon length dst start log)
                             = Ok (Daily fs)
                           /\ List.length fs = List.length entries
                           /\ forall i entry, nth_error entries i = Some entry ->
                                exists t v,
                                  nth_error fs i
                                    = Some {| d_timestamp := t; total_irradiance := v |}
                                  /\ py_getitem entry 0 = Ok t
                                  /\ py_getitem entry 1 = Ok v
                     end)
               \/ (exists c msg,
                     fst (call network decode json_loads urlencode op
                            self lat lon length dst start log)
                       = Raise (Exc c msg None)
                     /\ (c = TypeError \/ c = IndexError \/ c = KeyError)
                     /\ failure_kind_of (Exc c msg None) <> Some RemoteRequestFailed
                     /\ (py_iter raw = Raise (Exc c msg None)
                         \/ exists entries entry,
                              py_iter raw = Ok entries /\ In entry entries
                              /\ (t <- py_getitem entry 0 ;; py_getitem entry 1)%res
                                 = Raise (Exc c msg None)))
           end
       end.
Proof.
  intros network op self lat lon length dst start r log Hv Hnet Hst.
  rewrite (call_valid _ _ _ _ _ _ _ _ _ _ _ Hv).
  rewrite <- request_of_eta in Hnet.
  rewrite (fetch_status_200 _ _ _ _ _ _ _ Hnet Hst), request_of_eta.
  split; [reflexivity|]. cbn [fst].
  destruct (decode (read r)) as [text|msg|c msg]; cbn [of_decoded rbind];
    [|split; [reflexivity|discriminate]|reflexivity].
  destruct (json_loads text) as [raw|msg|c msg] eqn:Hjson.
  - destruct (parse_json_decoded_cases text op raw Hjson)
      as [(entries & Hiter & Hrec)|(c & msg & Hp & Hcls & Hwhy)].
    + left. exists entries. split; [exact Hiter|].
      destruct op; destruct Hrec as (fs & Hp & Hrec); exists fs;
        rewrite Hp; split; [reflexivity|exact Hrec|reflexivity|exact Hrec].
    + right. exists c, msg. rewrite Hp. split; [reflexivity|].
      split; [exact Hcls|]. split; [|exact Hwhy].
      destruct Hcls as [->|[->| ->]]; discriminate.
  - rewrite (parse_json_malformed _ _ _ _ Hjson). split; [reflexivity|discriminate].
  - rewrite (parse_json_aborted _ _ _ _ _ Hjson). reflexivity.
Qed.

End Further.

(** ** The theorems on the sample calls *)

Module Witnesses.

Import Reference Examples.

(** The successful calls of the repository's tests. *)
Lemma single_pair_gives_one_record_witness :
  outcome (sample_call (answers 200 sample_text) HourlyOp (VInt 24) (VInt 1) (VStr "auto"))
  = Ok (Hourly {| forecasts :=
                    [ {| timestamp := VStr "2023-10-01T00:00:00Z";
                         irradiance := VInt 1000 |} ] |})
  /\ outcome (sample_call (answers 200 sample_text) DailyOp (VInt 1) (VInt 1) (VStr "auto"))
     = Ok (Daily [ {| d_timestamp := VStr "2023-10-01T00:00:00Z";
                      total_irradiance := VInt 1000 |} ]).
Proof.
  split.
  - apply (single_pair_gives_one_record decode json_loads urlencode
             (answers 200 sample_text) HourlyOp client lat lon
             (VInt 24) (VInt 1) (VStr "auto")
             (mkResponse 200 (encode sample_text)) sample_text
             (VStr "2023-10-01T00:00:00Z") (VInt 1000)); reflexivity.
  - apply (single_pair_gives_one_record decode json_loads urlencode
             (answers 200 sample_text) DailyOp client lat lon
             (VInt 1) (VInt 1) (VStr "auto")
             (mkResponse 200 (encode sample_text)) sample_text
             (VStr "2023-10-01T00:00:00Z") (VInt 1000)); reflexivity.
Defined.

Lemma records_follow_the_array_witness :
  exists fs,
    outcome (sample_call (answers 200 two_days_text) DailyOp (VInt 2) (VInt 1) (VStr "today"))
    = Ok (Daily fs)
    /\ List.length fs = 2%nat
    /\ forall i t v,
         nth_error [ (VStr "2023-10-01T00:00:00Z", VInt 1000);
                     (VStr "2023-10-02T00:00:00Z", VNone) ] i = Some (t, v) ->
         exists d, nth_error fs i = Some d
           /\ d_timestamp d = t /\ total_irradiance d = v
           /\ (is_present (total_irradiance d) = true <-> v <> VNone).
Proof.
  apply (records_follow_the_array decode json_loads urlencode
           (answers 200 two_days_text) DailyOp client lat lon
           (VInt 2) (VInt 1) (VStr "today")
           (mkResponse 200 (encode two_days_text)) two_days_text
           [ (VStr "2023-10-01T00:00:00Z", VInt 1000);
             (VStr "2023-10-02T00:00:00Z", VNone) ]); reflexivity.
Defined.

Lemma null_total_is_absent_witness :
  exists d,
    outcome (get_daily_irradiance (answers 200 null_text) decode json_loads urlencode
               client lat lon (VInt 1) (VInt 1) (VStr "auto"))
    = Ok (Daily [d])
    /\ d_timestamp d = VStr "2023-10-02T00:00:00Z"
    /\ total_irradiance d = VNone
    /\ is_present (total_irradiance d) = false
    /\ total_irradiance d <> VInt 0
    /\ py_eq_int (total_irradiance d) 0 = false.
Proof.
  apply (null_total_is_absent decode json_loads urlencode
           (answers 200 null_text) client lat lon (VInt 1) (VInt 1) (VStr "auto")
           (mkResponse 200 (encode null_text)) null_text); reflexivity.
Defined.

(** The invalid lengths of the repository's tests: 12 hours, 5 days. *)
Lemma invalid_length_rejected_witness :
  get_hourly_irradiance unreachable decode json_loads urlencode
      client lat lon (VInt 12) (VInt 1) (VStr "auto") []
    = (Raise (new_exc ValueError "Invalid length. Should be 24, 48 or 72."), [])
  /\ get_daily_irradiance unreachable decode json_loads urlencode
      client lat lon (VInt 5) (VInt 1) (VStr "auto") []
    = (Raise (new_exc ValueError "Invalid length. Should be 1, 2 or 3."), [])
  /\ failure_kind_of (new_exc ValueError "Invalid length. Should be 24, 48 or 72.")
    = Some InvalidParameter
  /\ failure_kind_of (new_exc ValueError "Invalid length. Should be 1, 2 or 3.")
    = Some InvalidParameter.
Proof.
  apply (invalid_length_rejected decode json_loads urlencode unreachable
           client lat lon (VInt 12) (VInt 5) (VInt 1) (VStr "auto") []); reflexivity.
Defined.

Lemma invalid_dst_rejected_witness :
  exists msg,
    sample_call (answers 200 sample_text) DailyOp (VInt 1) (VInt 2) (VStr "auto") []
      = (Raise (new_exc ValueError msg), [])
    /\ failure_kind_of (new_exc ValueError msg) = Some InvalidParameter.
Proof.
  apply (invalid_dst_rejected decode json_loads urlencode (answers 200 sample_text)
           DailyOp client lat lon (VInt 1) (VInt 2) (VStr "auto") []); reflexivity.
Defined.

Lemma invalid_start_rejected_witness :
  exists msg,
    sample_call (answers 200 sample_text) HourlyOp (VInt 24) (VInt 1) (VStr "invalid") []
      = (Raise (new_exc ValueError msg), [])
    /\ failure_kind_of (new_exc ValueError msg) = Some InvalidParameter.
Proof.
  apply (invalid_start_rejected decode json_loads urlencode (answers 200 sample_text)
           HourlyOp client lat lon (VInt 24) (VInt 1) (VStr "invalid") []); reflexivity.
Defined.


Lemma only_status_200_is_parsed_witness :
  sample_call (answers 204 sample_text) HourlyOp (VInt 24) (VInt 1) (VStr "auto") []
    = (Raise (new_exc Exception "Failed to fetch data: HTTP 204"),
       [sample_request HourlyOp (VInt 24) (VInt 1) (VStr "auto")])
  /\ failure_kind_of (new_exc Exception "Failed to fetch data: HTTP 204")
     = Some RemoteRequestFailed.
Proof.
  apply (only_status_200_is_parsed decode json_loads urlencode (answers 204 sample_text)
           HourlyOp client lat lon (VInt 24) (VInt 1) (VStr "auto")
           (mkResponse 204 (encode sample_text)) []); [reflexivity|reflexivity|simpl; lia].
Defined.

Lemma failures_are_told_apart_witness :
  sample_call server_error DailyOp (VInt 1) (VInt 1) (VStr "auto") []
    = (Raise (Exc Exception "Failed get data: Internal Server Error - quota exceeded"
                (Some (HTTPError 500 "Internal Server Error" (encode "quota exceeded")))),
       [sample_request DailyOp (VInt 1) (VInt 1) (VStr "auto")])
  /\ sample_call unreachable DailyOp (VInt 1) (VInt 1) (VStr "auto") []
    = (Raise (Exc Exception "Failed to reach server: Server not reachable"
                (Some (URLError "Server not reachable"))),
       [sample_request DailyOp (VInt 1) (VInt 1) (VStr "auto")])
  /\ occurs_in "Internal Server Error"
       "Failed get data: Internal Server Error - quota exceeded"
  /\ occurs_in "quota exceeded" "Failed get data: Internal Server Error - quota exceeded"
  /\ occurs_in "Server not reachable" "Failed to reach server: Server not reachable"
  /\ startswith "Failed get data: Internal Server Error - quota exceeded"
       "Failed get data: " = true
  /\ startswith "Failed to reach server: Server not reachable" "Failed get data: " = false
  /\ failure_kind_of
       (Exc Exception "Failed get data: Internal Server Error - quota exceeded"
          (Some (HTTPError 500 "Internal Server Error" (encode "quota exceeded"))))
     = Some RemoteRequestFailed
  /\ failure_kind_of
       (Exc Exception "Failed to reach server: Server not reachable"
          (Some (URLError "Server not reachable")))
     = Some TransportUnreachable
  /\ (forall c msg cause,
        failure_kind_of (Exc c msg cause) = Some InvalidParameter ->
        c = ValueError /\ c <> Exception).
Proof.
  apply (failures_are_told_apart decode json_loads urlencode server_error unreachable
           DailyOp client lat lon (VInt 1) (VInt 1) (VStr "auto")
           500 "Internal Server Error" (encode "quota exceeded") "quota exceeded"
           "Server not reachable" []); reflexivity.
Defined.

(** A body that is an HTML page, not JSON. *)
Lemma parse_errors_pass_unchanged_witness :
  snd (sample_call (answers 200 "<html>") HourlyOp (VInt 24) (VInt 1) (VStr "auto") [])
    = [sample_request HourlyOp (VInt 24) (VInt 1) (VStr "auto")]
  /\ fst (sample_call (answers 200 "<html>") HourlyOp (VInt 24) (VInt 1) (VStr "auto") [])
     = Raise (Exc JSONDecodeError "Expecting value: line 1 column 1 (char 0)" None)
  /\ failure_kind_of (Exc JSONDecodeError "Expecting value: line 1 column 1 (char 0)" None)
     <> Some RemoteRequestFailed.
Proof.
  apply (parse_errors_pass_unchanged decode json_loads urlencode (answers 200 "<html>")
           HourlyOp client lat lon (VInt 24) (VInt 1) (VStr "auto")
           (mkResponse 200 (encode "<html>")) []); reflexivity.
Defined.

End Witnesses.

(** ** The further properties on the sample calls *)

Module FurtherWitnesses.

Import Reference Examples.

(** A bad dst and a bad start together: the dst check speaks. *)
Lemma first_failing_check_decides_witness :
  fst (sample_call unreachable HourlyOp (VInt 24) (VInt 2) (VStr "invalid") [])
  = Raise (new_exc ValueError "Invalid dst. Should be 0 or 1.").
Proof.
  apply (first_failing_check_decides decode json_loads urlencode unreachable
           HourlyOp client lat lon (VInt 24) (VInt 2) (VStr "invalid") []); reflexivity.
Defined.

Lemma success_requires_a_parsed_200_response_witness :
  fst (sample_call (answers 200 null_text) DailyOp (VInt 1) (VInt 1) (VStr "auto") [])
  = Ok (Daily [ {| d_timestamp := VStr "2023-10-02T00:00:00Z"; total_irradiance := VNone |} ])
  /\ valid DailyOp (VInt 1) (VInt 1) (VStr "auto") = true
  /\ (exists r text,
        answers 200 null_text (sample_request DailyOp (VInt 1) (VInt 1) (VStr "auto"))
          = Returns r
        /\ status r = 200
        /\ decode (read r) = Decoded text
        /\ _parse_json json_loads text "day"
           = Ok (Daily [ {| d_timestamp := VStr "2023-10-02T00:00:00Z";
                            total_irradiance := VNone |} ]))
  /\ exists l,
       Daily [ {| d_timestamp := VStr "2023-10-02T00:00:00Z"; total_irradiance := VNone |} ]
       = Daily l.
Proof.
  split; [reflexivity|].
  apply (success_requires_a_parsed_200_response decode json_loads urlencode
           (answers 200 null_text) DailyOp client lat lon
           (VInt 1) (VInt 1) (VStr "auto") []); reflexivity.
Defined.

(** An unreachable server: the exception that leaves the call is the
    [Exception] of the handler, with the [URLError] as cause. *)
Lemma transport_errors_never_reach_the_caller_witness :
  fst (sample_call unreachable HourlyOp (VInt 24) (VInt 1) (VStr "auto") [])
  = Raise (Exc Exception "Failed to reach server: Server not reachable"
             (Some (URLError "Server not reachable")))
  /\ exists c msg cause,
       Exc Exception "Failed to reach server: Server not reachable"
         (Some (URLError "Server not reachable"))
       = Exc c msg cause
       /\ match cause with
          | Some te =>
              c = Exception
              /\ unreachable (sample_request HourlyOp (VInt 24) (VInt 1) (VStr "auto"))
                 = Fails te
          | None => True
          end.
Proof.
  split; [reflexivity|].
  apply (transport_errors_never_reach_the_caller decode json_loads urlencode unreachable
           HourlyOp client lat lon (VInt 24) (VInt 1) (VStr "auto") []); reflexivity.
Defined.

(** An entry of three elements: accepted, the third element ignored. *)
Lemma array_of_arrays_needs_two_elements_witness :
  outcome (sample_call (answers 200 triple_text) HourlyOp (VInt 24) (VInt 1) (VStr "auto"))
  = Ok (Hourly {| forecasts :=
                    [ {| timestamp := VStr "2023-10-01T00:00:00Z";
                         irradiance := VInt 1000 |} ] |}).
Proof.
  apply (array_of_arrays_needs_two_elements decode json_loads urlencode
           (answers 200 triple_text) HourlyOp client lat lon
           (VInt 24) (VInt 1) (VStr "auto")
           (mkResponse 200 (encode triple_text)) triple_text
           [[VStr "2023-10-01T00:00:00Z"; VInt 1000; VInt 7]]); reflexivity.
Defined.

(** A JSON object that reports an error: its key is iterated, and the
    record holds the first two characters of ["error"]. *)
Lemma accepted_value_is_followed_item_by_item_witness :
  outcome (sample_call (answers 200 error_object_text) DailyOp
             (VInt 1) (VInt 1) (VStr "auto"))
  = Ok (Daily [ {| d_timestamp := VStr "e"; total_irradiance := VStr "r" |} ])
  /\ List.length [ {| d_timestamp := VStr "e"; total_irradiance := VStr "r" |} ]
  = List.length [VStr "error"]
  /\ forall i entry, nth_error [VStr "error"] i = Some entry ->
       exists t v,
         nth_error [ {| d_timestamp := VStr "e"; total_irradiance := VStr "r" |} ] i
         = Some {| d_timestamp := t; total_irradiance := v |}
         /\ py_getitem entry 0 = Ok t /\ py_getitem entry 1 = Ok v.
Proof.
  split; [reflexivity|].
  apply (accepted_value_is_followed_item_by_item decode json_loads urlencode
           (answers 200 error_object_text) DailyOp client lat lon
           (VInt 1) (VInt 1) (VStr "auto")
           (mkResponse 200 (encode error_object_text)) error_object_text
           (VDict [("error", VStr "Invalid key")]) [VStr "error"]
           (Daily [ {| d_timestamp := VStr "e"; total_irradiance := VStr "r" |} ]));
    reflexivity.
Defined.

(** The array of one element decides, not the number after it. *)
Lemma first_bad_entry_decides_witness :
  outcome (sample_call (answers 200 mixed_text) DailyOp (VInt 1) (VInt 1) (VStr "auto"))
  = Raise (Exc IndexError "list index out of range" None).
Proof.
  apply (first_bad_entry_decides decode json_loads urlencode
           (answers 200 mixed_text) DailyOp client lat lon
           (VInt 1) (VInt 1) (VStr "auto")
           (mkResponse 200 (encode mixed_text)) mixed_text
           [(VStr "a", VInt 1)] (VList [VInt 2]) [VInt 5]); reflexivity.
Defined.

Lemma scalar_body_is_not_iterable_witness :
  outcome (sample_call (answers 200 "null") HourlyOp (VInt 24) (VInt 1) (VStr "auto"))
  = Raise (Exc TypeError "'NoneType' object is not iterable" None).
Proof.
  apply (scalar_body_is_not_iterable decode json_loads urlencode
           (answers 200 "null") HourlyOp client lat lon
           (VInt 24) (VInt 1) (VStr "auto")
           (mkResponse 200 (encode "null")) "null" VNone); reflexivity.
Defined.

(** Two days, asked for by the hour and by the day. *)
Lemma daily_call_mirrors_hourly_call_witness :
  outcome (get_daily_irradiance (answers 200 two_days_text) decode json_loads urlencode
             client lat lon (VInt 2) (VInt 1) (VStr "auto"))
  = match outcome (get_hourly_irradiance (answers 200 two_days_text) decode json_loads
                     urlencode client lat lon (VInt 48) (VInt 1) (VStr "auto")) with
    | Ok (Hourly d) =>
        Ok (Daily (map (fun f => {| d_timestamp := timestamp f;
                                    total_irradiance := irradiance f |})
                     (forecasts d)))
    | Ok (Daily l) => Ok (Daily l)
    | Raise e => Raise e
    end.
Proof.
  apply (daily_call_mirrors_hourly_call decode json_loads urlencode
           (answers 200 two_days_text) client lat lon (VInt 48) (VInt 2)
           (VInt 1) (VStr "auto") (Returns (mkResponse 200 (encode two_days_text))));
    reflexivity.
Defined.

Lemma undecodable_body_raises_witness :
  sample_call (always (Returns (mkResponse 200 not_utf8)))
    HourlyOp (VInt 24) (VInt 1) (VStr "auto") []
  = (Raise (Exc UnicodeDecodeError
              "'utf-8' codec can't decode byte 0xff in position 0: invalid start byte" None),
     [sample_request HourlyOp (VInt 24) (VInt 1) (VStr "auto")]).
Proof.
  apply (undecodable_body_raises decode json_loads urlencode
           (always (Returns (mkResponse 200 not_utf8)))
           HourlyOp client lat lon (VInt 24) (VInt 1) (VStr "auto")
           (mkResponse 200 not_utf8)
           "'utf-8' codec can't decode byte 0xff in position 0: invalid start byte" []);
    reflexivity.
Defined.

Lemma undecodable_error_body_raises_witness :
  sample_call (always (Fails (HTTPError 500 "Internal Server Error" not_utf8)))
    DailyOp (VInt 1) (VInt 1) (VStr "auto") []
  = (Raise (Exc UnicodeDecodeError
              "'utf-8' codec can't decode byte 0xff in position 0: invalid start byte" None),
     [sample_request DailyOp (VInt 1) (VInt 1) (VStr "auto")]).
Proof.
  apply (undecodable_error_body_raises decode json_loads urlencode
           (always (Fails (HTTPError 500 "Internal Server Error" not_utf8)))
           DailyOp client lat lon (VInt 1) (VInt 1) (VStr "auto")
           500 "Internal Server Error" not_utf8
           "'utf-8' codec can't decode byte 0xff in position 0: invalid start byte" []);
    reflexivity.
Defined.

End FurtherWitnesses.

(** ** What the client does not wrap *)

Module Counterexamples.

Import Reference Examples.

(** On a response with status 200, an HTML body makes the hourly call
    raise [JSONDecodeError], the JSON body [[1]] makes it raise [TypeError],
    and neither exception is a [RemoteRequestFailed] failure; an array whose
    entry has three elements makes it return a record and no failure. *)
Lemma parse_errors_are_not_remote_failures :
  outcome (sample_call (answers 200 "<html>") HourlyOp (VInt 24) (VInt 1) (VStr "auto"))
    = Raise (Exc JSONDecodeError "Expecting value: line 1 column 1 (char 0)" None)
  /\ failure_kind_of (Exc JSONDecodeError "Expecting value: line 1 column 1 (char 0)" None)
     <> Some RemoteRequestFailed
  /\ outcome (sample_call (answers 200 "[1]") HourlyOp (VInt 24) (VInt 1) (VStr "auto"))
    = Raise (Exc TypeError "'int' object is not subscriptable" None)
  /\ failure_kind_of (Exc TypeError "'int' object is not subscriptable" None)
     <> Some RemoteRequestFailed
  /\ outcome (sample_call (answers 200 triple_text) HourlyOp (VInt 24) (VInt 1) (VStr "auto"))
    = Ok (Hourly {| forecasts :=
                      [ {| timestamp := VStr "2023-10-01T00:00:00Z";
                           irradiance := VInt 1000 |} ] |}).
Proof.
  repeat split; try reflexivity; discriminate.
Qed.

(** ** Failures that are not wrapped *)

(** An HTTP 500 whose body is the byte [0xff]: the handler's
    [e.read().decode()] raises [UnicodeDecodeError], so the call does not
    raise the "Failed get data" [Exception]; what it raises is not a
    [RemoteRequestFailed] failure, and its class derives from
    [ValueError].  A connection that the server closes before answering:
    [RemoteDisconnected] is no [URLError], so it reaches the caller as it
    is, and is not a [TransportUnreachable] failure. *)
Lemma error_body_that_is_not_text_is_not_wrapped :
  outcome (sample_call server_error_not_text HourlyOp (VInt 24) (VInt 1) (VStr "auto"))
    = Raise (Exc UnicodeDecodeError
               "'utf-8' codec can't decode byte 0xff in position 0: invalid start byte"
               None)
  /\ failure_kind_of
       (Exc UnicodeDecodeError
          "'utf-8' codec can't decode byte 0xff in position 0: invalid start byte" None)
     <> Some RemoteRequestFailed
  /\ outcome (sample_call disconnected HourlyOp (VInt 24) (VInt 1) (VStr "auto"))
    = Raise (Exc (OtherError "RemoteDisconnected")
               "Remote end closed connection without response" None)
  /\ failure_kind_of
       (Exc (OtherError "RemoteDisconnected")
          "Remote end closed connection without response" None)
     <> Some TransportUnreachable.
Proof.
  repeat split; try reflexivity; discriminate.
Qed.

(** Entries that are not arrays are subscripted all the same: a string
    entry gives its first two characters, and a JSON object is iterated by
    its keys. *)
Example string_entries_are_subscripted :
  outcome (sample_call (answers 200 ("[" ++ dq ++ "ab" ++ dq ++ "]"))
             DailyOp (VInt 1) (VInt 1) (VStr "auto"))
    = Ok (Daily [ {| d_timestamp := VStr "a"; total_irradiance := VStr "b" |} ])
  /\ outcome (sample_call (answers 200 ("{" ++ dq ++ "ab" ++ dq ++ ": 1}"))
                DailyOp (VInt 1) (VInt 1) (VStr "auto"))
    = Ok (Daily [ {| d_timestamp := VStr "a"; total_irradiance := VStr "b" |} ])
  /\ outcome (sample_call (answers 200 "[[1]]") DailyOp (VInt 1) (VInt 1) (VStr "auto"))
    = Raise (Exc IndexError "list index out of range" None)
  /\ outcome (sample_call (answers 200 "[{}]") DailyOp (VInt 1) (VInt 1) (VStr "auto"))
    = Raise (Exc KeyError "0" None)
  /\ outcome (sample_call (answers 200 "7") DailyOp (VInt 1) (VInt 1) (VStr "auto"))
    = Raise (Exc TypeError "'int' object is not iterable" None).
Proof. repeat split. Qed.

End Counterexamples.
